(** * Groq_agent: the agent orchestration core

    A shallow embedding of [src/agent.py], [src/tools.py] and
    [src/mock_databases.py], and the properties of the specification that
    can be stated over it.

    Conventions of the embedding.
    - A Python [str] is a [list ascii]: a sequence of code points, here the
      code points below 256.  [lit "..."] is a string literal.
    - A Python call that can raise returns a [result]; [try]/[except] is a
      [match] on it.
    - An object mutated in place (the memory, the order store, the agent) is a
      value threaded through the functions that touch it. *)

From Stdlib Require Import Ascii String List Bool Arith Lia QArith.
From Stdlib Require Import DecimalString Sorted Permutation.
From stdpp Require Import gmap strings list.

Open Scope nat_scope.
Open Scope list_scope.

(** ** Python values and exceptions *)

Abbreviation str := (list ascii).

Definition lit (s : string) : str := list_ascii_of_string s.

(** The exceptions the modelled code can meet.  [BackendError] stands for
    whatever the language-model client raises; it carries [str(e)]. *)
Inductive exn : Type :=
| ValueError (msg : str)
| IndexError (msg : str)
| AttributeError (msg : str)
| TypeError (msg : str)
| BackendError (msg : str).

Definition exn_str (e : exn) : str :=
  match e with
  | ValueError m | IndexError m | AttributeError m | TypeError m
  | BackendError m => m
  end.

Inductive result (A : Type) : Type :=
| Ok (a : A)
| Raise (e : exn).
Arguments Ok {A} a.
Arguments Raise {A} e.

#[global] Instance result_ret : MRet result := fun _ a => Ok a.

#[global] Instance result_bind : MBind result := fun _ _ k r =>
  match r with
  | Ok a => k a
  | Raise e => Raise e
  end.

Definition raises {A} (r : result A) : bool :=
  match r with Ok _ => false | Raise _ => true end.

(** ** The [str] methods used by the sources *)

Module Py.

Definition LF : ascii := ascii_of_nat 10.

(** [str.isspace] on one code point below 256: TAB..CR, FS..US, SPACE,
    NEL and NBSP. *)
Definition isspace (c : ascii) : bool :=
  let n := nat_of_ascii c in
  ((9 <=? n) && (n <=? 13)) || ((28 <=? n) && (n <=? 32))
  || (n =? 133) || (n =? 160).

(** [c.lower()] on one code point below 256: A..Z and the Latin-1 capitals
    (all of U+00C0..U+00DE but the multiplication sign) move by 32. *)
Definition lower_char (c : ascii) : ascii :=
  let n := nat_of_ascii c in
  if ((65 <=? n) && (n <=? 90))
     || ((192 <=? n) && (n <=? 222) && negb (n =? 215))
  then ascii_of_nat (n + 32) else c.

Definition lower (s : str) : str := map lower_char s.

(** [s.startswith(p)] *)
Fixpoint startswith (p s : str) : bool :=
  match p, s with
  | [], _ => true
  | _ :: _, [] => false
  | a :: p', b :: s' => Ascii.eqb a b && startswith p' s'
  end.

(** [s.find(sub)]: the lowest index where [sub] occurs, [None] for -1. *)
Fixpoint find (sub s : str) : option nat :=
  if startswith sub s then Some 0
  else match s with
       | [] => None
       | _ :: s' => option_map S (find sub s')
       end.

(** [sub in s] *)
Definition contains (sub s : str) : bool :=
  match find sub s with Some _ => true | None => false end.

(** [s.lstrip()], [s.rstrip()], [s.strip()] *)
Fixpoint lstrip (s : str) : str :=
  match s with
  | c :: s' => if isspace c then lstrip s' else s
  | [] => []
  end.

Definition rstrip (s : str) : str := rev (lstrip (rev s)).

Definition strip (s : str) : str := rstrip (lstrip s).

(** [s.split(sep)] scans from the left: it cuts at the lowest occurrence of
    [sep] and goes on after it.  Every cut consumes at least one character
    of a non-empty [sep], so [length s] rounds are enough (see
    [split_from_fuel]). *)
Fixpoint split_from (fuel : nat) (sep s : str) : list str :=
  match fuel with
  | 0 => [s]
  | S fuel' =>
      match find sep s with
      | None => [s]
      | Some j => firstn j s :: split_from fuel' sep (skipn (j + length sep) s)
      end
  end.

Definition split (sep s : str) : result (list str) :=
  match sep with
  | [] => Raise (ValueError (lit "empty separator"))
  | _ :: _ => Ok (split_from (length s) sep s)
  end.

(** [l[-1]] *)
Definition index_last {A} (l : list A) : result A :=
  match rev l with
  | x :: _ => Ok x
  | [] => Raise (IndexError (lit "list index out of range"))
  end.

(** [str(n)] for an integer that is not negative. *)
Definition str_of_nat (n : nat) : str :=
  lit (NilEmpty.string_of_uint (Nat.to_uint n)).

Definition str_of_N (n : N) : str :=
  lit (NilEmpty.string_of_uint (N.to_uint n)).

(** [sep.join(parts)] *)
Fixpoint join (sep : str) (parts : list str) : str :=
  match parts with
  | [] => []
  | [part] => part
  | part :: rest => part ++ sep ++ join sep rest
  end.

(** An optional text as a condition: [None] and the empty text are false. *)
Definition truthy (s : option str) : option str :=
  match s with
  | Some (c :: r) => Some (c :: r)
  | _ => None
  end.

End Py.

(** ** The regular expression of the parser

    The pattern of agent.py line 31 is a sequence of literal characters and
    two capture groups, each a starred dot.  Without [re.DOTALL] the dot
    matches every character but the line feed; the star is greedy and
    backtracks. *)

Module Re.

Inductive tok : Type :=
| Chr (c : ascii)
| DotStarGroup.

Definition chars (s : str) : list tok := map Chr s.

(** [re.match] of the token sequence at the head of [s]: the captured
    groups in order.  A group first tries to take one more character and
    falls back to stopping where it is. *)
Fixpoint match_here (p : list tok) : str -> option (list str) :=
  match p with
  | [] => fun _ => Some []
  | Chr c :: p' =>
      fun s => match s with
               | c' :: s' => if Ascii.eqb c c' then match_here p' s' else None
               | [] => None
               end
  | DotStarGroup :: p' =>
      fix star (s : str) : option (list str) :=
        let stop := option_map (cons []) (match_here p' s) in
        match s with
        | c :: s' =>
            if Ascii.eqb c Py.LF then stop
            else match star s' with
                 | Some (g :: gs) => Some ((c :: g) :: gs)
                 | _ => stop
                 end
        | [] => stop
        end
  end.

(** [re.search]: the match at the lowest start position. *)
Fixpoint search (p : list tok) (s : str) : option (list str) :=
  match match_here p s with
  | Some gs => Some gs
  | None => match s with
            | [] => None
            | _ :: s' => search p s'
            end
  end.

End Re.

(** ** [SafeOutputParser] (agent.py) *)

Inductive ParsedOutcome : Type :=
| AgentFinish (output : str) (log : str)
| AgentAction (tool : str) (tool_input : str) (log : str).

Module SafeOutputParser.

Definition FINAL_ANSWER : str := lit "Final Answer:".

Definition ACTION_RE : list Re.tok :=
  Re.chars (lit "Action: ") ++ [Re.DotStarGroup]
  ++ Re.chars (Py.LF :: lit "Action Input: ") ++ [Re.DotStarGroup].

(** The body of the [try]. *)
Definition parse_body (text : str) : result ParsedOutcome :=
  if Py.contains FINAL_ANSWER text then
    pieces ← Py.split FINAL_ANSWER text;
    piece ← Py.index_last pieces;
    Ok (AgentFinish (Py.strip piece) text)
  else
    match Re.search ACTION_RE text with
    | Some (g1 :: g2 :: _) =>
        Ok (AgentAction (Py.strip g1) (Py.strip g2) text)
    | Some _ => Raise (IndexError (lit "no such group"))
    | None => Ok (AgentFinish (Py.strip text) text)
    end.

Definition parse (text : str) : ParsedOutcome :=
  match parse_body text with
  | Ok outcome => outcome
  | Raise _ => AgentFinish (lit "[Unparsed Output] " ++ Py.strip text) text
  end.

End SafeOutputParser.

(** ** mock_databases.py *)

Module MockOrderDatabase.

(** Amounts are in cents: 99.99 is [9999]. *)
Record Item : Type := {
  product_id : str;
  name : str;
  quantity : nat;
  price : N
}.

Record Order : Type := {
  order_id : str;
  customer_id : str;
  status : str;
  items : list Item;
  total : N;
  order_date : str;
  shipping_address : str;
  tracking_number : option str;
  can_cancel : bool
}.

(** The dictionary a method returns. *)
Record Outcome : Type := {
  success : bool;
  message : str
}.

(** [self.orders] as [__init__] fills it. *)
Definition init : gmap str Order :=
  list_to_map [
    (lit "ORD001",
     {| order_id := lit "ORD001"; customer_id := lit "CUST001";
        status := lit "shipped";
        items := [ {| product_id := lit "PROD001"; name := lit "Wireless Headphones";
                      quantity := 1; price := 9999 |} ];
        total := 9999; order_date := lit "2024-01-15";
        shipping_address := lit "123 Main St, New York, NY";
        tracking_number := Some (lit "TRK123456789"); can_cancel := false |});
    (lit "ORD002",
     {| order_id := lit "ORD002"; customer_id := lit "CUST001";
        status := lit "processing";
        items := [ {| product_id := lit "PROD002"; name := lit "Smart Watch";
                      quantity := 1; price := 24999 |};
                   {| product_id := lit "PROD003"; name := lit "Phone Case";
                      quantity := 2; price := 1999 |} ];
        total := 28997; order_date := lit "2024-01-20";
        shipping_address := lit "123 Main St, New York, NY";
        tracking_number := None; can_cancel := true |});
    (lit "ORD003",
     {| order_id := lit "ORD003"; customer_id := lit "CUST002";
        status := lit "delivered";
        items := [ {| product_id := lit "PROD004"; name := lit "Laptop Stand";
                      quantity := 1; price := 4599 |} ];
        total := 4599; order_date := lit "2024-01-10";
        shipping_address := lit "456 Oak Ave, Los Angeles, CA";
        tracking_number := Some (lit "TRK987654321"); can_cancel := false |});
    (lit "ORD004",
     {| order_id := lit "ORD004"; customer_id := lit "CUST003";
        status := lit "processing";
        items := [ {| product_id := lit "PROD005"; name := lit "Winter Jacket";
                      quantity := 1; price := 8999 |} ];
        total := 8999; order_date := lit "2024-01-22";
        shipping_address := lit "789 Pine Rd, Chicago, IL";
        tracking_number := None; can_cancel := true |});
    (lit "ORD005",
     {| order_id := lit "ORD005"; customer_id := lit "CUST004";
        status := lit "delivered";
        items := [ {| product_id := lit "PROD006"; name := lit "Gaming Mouse";
                      quantity := 1; price := 5999 |} ];
        total := 5999; order_date := lit "2024-01-18";
        shipping_address := lit "321 Elm St, Houston, TX";
        tracking_number := Some (lit "TRK2468101214"); can_cancel := false |});
    (lit "ORD006",
     {| order_id := lit "ORD006"; customer_id := lit "CUST005";
        status := lit "processing";
        items := [ {| product_id := lit "PROD007"; name := lit "Bluetooth Speaker";
                      quantity := 2; price := 3499 |} ];
        total := 6998; order_date := lit "2024-01-21";
        shipping_address := lit "654 Maple Ln, Miami, Florida";
        tracking_number := None; can_cancel := true |})
  ].

Definition get_order_status (orders : gmap str Order) (id : str) : option Order :=
  orders !! id.

(** The order the method fetches is the object stored under [id]: the two
    assignments update the store in place. *)
Definition cancelled (order : Order) : Order :=
  {| order_id := order_id order; customer_id := customer_id order;
     status := lit "cancelled";
     items := items order; total := total order;
     order_date := order_date order;
     shipping_address := shipping_address order;
     tracking_number := tracking_number order;
     can_cancel := false |}.

Definition cancel_order (orders : gmap str Order) (id : str)
  : gmap str Order * Outcome :=
  match orders !! id with
  | None =>
      (orders, {| success := false; message := lit "Order not found" |})
  | Some order =>
      if negb (can_cancel order) then
        (orders,
         {| success := false;
            message := lit "Order cannot be cancelled (already shipped/delivered)" |})
      else
        (<[id := cancelled order]> orders,
         {| success := true; message := lit "Order cancelled successfully" |})
  end.

(** [process_return].  The method does not use [reason]; [draw] is the value
    of [random.randint(1000, 9999)].  The store is only read. *)
Definition process_return (orders : gmap str Order) (id reason : str) (draw : N)
  : Outcome :=
  match orders !! id with
  | None => {| success := false; message := lit "Order not found" |}
  | Some order =>
      if negb (bool_decide (status order = lit "delivered")) then
        {| success := false;
           message := lit "Order must be delivered to process return" |}
      else
        {| success := true;
           message := lit "Return request processed. Return ID: RET"
                      ++ Py.str_of_N draw
                      ++ lit ". Please ship items back within 30 days." |}
  end.

End MockOrderDatabase.

Module MockCustomerDatabase.

Record Preferences : Type := {
  categories : list str;
  brands : list str;
  communication : str
}.

Record Customer : Type := {
  customer_id : str;
  name : str;
  email : str;
  phone : str;
  address : str;
  loyalty_points : nat;
  tier : str;
  preferences : Preferences;
  order_history : list str
}.

(** [self.customers] as [__init__] fills it, in insertion order. *)
Definition init : list (str * Customer) := [
  (lit "CUST001",
   {| customer_id := lit "CUST001"; name := lit "John Doe";
      email := lit "john.doe@email.com"; phone := lit "+1-555-0123";
      address := lit "123 Main St, New York, NY";
      loyalty_points := 1250; tier := lit "Gold";
      preferences := {| categories := [lit "Electronics"; lit "Books"];
                        brands := [lit "TechBrand"; lit "BookCorp"];
                        communication := lit "email" |};
      order_history := [lit "ORD001"; lit "ORD002"] |});
  (lit "CUST002",
   {| customer_id := lit "CUST002"; name := lit "Jane Smith";
      email := lit "jane.smith@email.com"; phone := lit "+1-555-0456";
      address := lit "456 Oak Ave, Los Angeles, CA";
      loyalty_points := 750; tier := lit "Silver";
      preferences := {| categories := [lit "Home"; lit "Office"];
                        brands := [lit "HomePlus"; lit "OfficeMax"];
                        communication := lit "sms" |};
      order_history := [lit "ORD003"] |});
  (lit "CUST003",
   {| customer_id := lit "CUST003"; name := lit "Alice Johnson";
      email := lit "alice.johnson@email.com"; phone := lit "+1-555-0789";
      address := lit "789 Pine Rd, Chicago, Illinois";
      loyalty_points := 300; tier := lit "Bronze";
      preferences := {| categories := [lit "Clothing"; lit "Accessories"];
                        brands := [lit "Fashionista"; lit "Accents"];
                        communication := lit "email" |};
      order_history := [lit "ORD004"] |});
  (lit "CUST004",
   {| customer_id := lit "CUST004"; name := lit "Bob Brown";
      email := lit "bob.brown@email.com"; phone := lit "+1-555-0110";
      address := lit "321 Elm St, Houston, Texas";
      loyalty_points := 980; tier := lit "Gold";
      preferences := {| categories := [lit "Electronics"; lit "Gaming"];
                        brands := [lit "GamePro"; lit "TechBrand"];
                        communication := lit "sms" |};
      order_history := [lit "ORD005"] |});
  (lit "CUST005",
   {| customer_id := lit "CUST005"; name := lit "Carol White";
      email := lit "carol.white@email.com"; phone := lit "+1-555-0222";
      address := lit "654 Maple Ln, Miami, Florida";
      loyalty_points := 450; tier := lit "Silver";
      preferences := {| categories := [lit "Electronics"; lit "Home"];
                        brands := [lit "HomePlus"; lit "SoundMaster"];
                        communication := lit "email" |};
      order_history := [lit "ORD006"] |})
].

Definition str_eqb (a b : str) : bool := bool_decide (a = b).

Fixpoint dict_get {V} (d : list (str * V)) (key : str) : option V :=
  match d with
  | [] => None
  | (k, v) :: d' => if str_eqb k key then Some v else dict_get d' key
  end.

Definition get_customer_info (customers : list (str * Customer)) (id : str)
  : option Customer :=
  dict_get customers id.

Fixpoint get_customer_by_email (customers : list (str * Customer)) (mail : str)
  : option Customer :=
  match customers with
  | [] => None
  | (_, customer) :: rest =>
      if str_eqb (Py.lower (email customer)) (Py.lower mail) then Some customer
      else get_customer_by_email rest mail
  end.

(** The attributes of an instance: the field [customers] and the two
    methods the class defines.  There is no other [def] in the class. *)
Inductive attribute : Type :=
| attr_customers
| attr_get_customer_info
| attr_get_customer_by_email.

Definition attributes : list (str * attribute) := [
  (lit "customers", attr_customers);
  (lit "get_customer_info", attr_get_customer_info);
  (lit "get_customer_by_email", attr_get_customer_by_email)
].

(** [customer_db.<name>] *)
Definition getattr (name : str) : result attribute :=
  match dict_get attributes name with
  | Some a => Ok a
  | None =>
      Raise (AttributeError
               (lit "'MockCustomerDatabase' object has no attribute '"
                ++ name ++ lit "'"))
  end.

End MockCustomerDatabase.

Module MockProductDatabase.

(** Prices are in cents and ratings in tenths: 99.99 is [9999], 4.5 is
    [45]. *)
Record Product : Type := {
  product_id : str;
  name : str;
  category : str;
  price : N;
  availability : str;
  stock_count : nat;
  description : str;
  rating : N;
  features : list str
}.

(** [self.products] as [__init__] fills it, in insertion order. *)
Definition init : list (str * Product) := [
  (lit "PROD001",
   {| product_id := lit "PROD001"; name := lit "Wireless Headphones";
      category := lit "Electronics"; price := 9999;
      availability := lit "in_stock"; stock_count := 25;
      description := lit "High-quality wireless headphones with noise cancellation";
      rating := 45;
      features := [lit "Bluetooth 5.0"; lit "30-hour battery";
                   lit "Active noise cancellation"] |});
  (lit "PROD002",
   {| product_id := lit "PROD002"; name := lit "Smart Watch";
      category := lit "Electronics"; price := 24999;
      availability := lit "in_stock"; stock_count := 12;
      description := lit "Feature-rich smartwatch with health monitoring";
      rating := 43;
      features := [lit "Heart rate monitor"; lit "GPS"; lit "Water resistant";
                   lit "7-day battery"] |});
  (lit "PROD003",
   {| product_id := lit "PROD003"; name := lit "Phone Case";
      category := lit "Accessories"; price := 1999;
      availability := lit "in_stock"; stock_count := 100;
      description := lit "Durable protective phone case";
      rating := 41;
      features := [lit "Drop protection"; lit "Wireless charging compatible";
                   lit "Clear design"] |});
  (lit "PROD004",
   {| product_id := lit "PROD004"; name := lit "Laptop Stand";
      category := lit "Office"; price := 4599;
      availability := lit "low_stock"; stock_count := 3;
      description := lit "Adjustable laptop stand for ergonomic working";
      rating := 47;
      features := [lit "Adjustable height"; lit "Foldable"; lit "Heat dissipation";
                   lit "Universal compatibility"] |});
  (lit "PROD005",
   {| product_id := lit "PROD005"; name := lit "Winter Jacket";
      category := lit "Clothing"; price := 8999;
      availability := lit "in_stock"; stock_count := 15;
      description := lit "Warm and waterproof winter jacket";
      rating := 44;
      features := [lit "Waterproof"; lit "Insulated"; lit "Multiple pockets";
                   lit "Wind resistant"] |});
  (lit "PROD006",
   {| product_id := lit "PROD006"; name := lit "Gaming Mouse";
      category := lit "Electronics"; price := 5999;
      availability := lit "in_stock"; stock_count := 40;
      description := lit "Ergonomic gaming mouse with customizable buttons";
      rating := 46;
      features := [lit "RGB lighting"; lit "High precision sensor";
                   lit "Wireless and wired modes"] |});
  (lit "PROD007",
   {| product_id := lit "PROD007"; name := lit "Bluetooth Speaker";
      category := lit "Electronics"; price := 3499;
      availability := lit "in_stock"; stock_count := 50;
      description := lit "Portable Bluetooth speaker with rich bass";
      rating := 42;
      features := [lit "Water resistant"; lit "12-hour battery";
                   lit "Compact design"] |});
  (lit "PROD008",
   {| product_id := lit "PROD008"; name := lit "Desk Lamp";
      category := lit "Office"; price := 2999;
      availability := lit "in_stock"; stock_count := 20;
      description := lit "LED desk lamp with adjustable brightness";
      rating := 40;
      features := [lit "Adjustable brightness"; lit "Touch control";
                   lit "Energy efficient"] |});
  (lit "PROD009",
   {| product_id := lit "PROD009"; name := lit "Running Shoes";
      category := lit "Clothing"; price := 7599;
      availability := lit "in_stock"; stock_count := 30;
      description := lit "Lightweight running shoes for everyday use";
      rating := 43;
      features := [lit "Breathable material"; lit "Cushioned sole";
                   lit "Durable outsole"] |});
  (lit "PROD010",
   {| product_id := lit "PROD010"; name := lit "Coffee Mug";
      category := lit "Accessories"; price := 1499;
      availability := lit "in_stock"; stock_count := 60;
      description := lit "Ceramic coffee mug with a sleek design";
      rating := 45;
      features := [lit "Microwave safe"; lit "Dishwasher safe";
                   lit "350ml capacity"] |})
].

(** [self.products.values()] *)
Definition values (products : list (str * Product)) : list Product :=
  map snd products.

(** The loop of [search_products] over the products still to visit. *)
Fixpoint search_loop (rest : list Product) (query_lower : str) (category : option str)
  : list Product :=
  match rest with
  | [] => []
  | product :: rest' =>
      let match1 := Py.contains query_lower (Py.lower (name product)) in
      let match2 :=
        match Py.truthy category with
        | Some wanted =>
            if negb (MockCustomerDatabase.str_eqb (Py.lower wanted)
                       (Py.lower (MockProductDatabase.category product)))
            then false else match1
        | None => match1
        end in
      if match2 then product :: search_loop rest' query_lower category
      else search_loop rest' query_lower category
  end.

Definition search_products (products : list (str * Product)) (query : str)
    (category : option str) : list Product :=
  search_loop (values products) (Py.lower query) category.

Definition get_product_details (products : list (str * Product)) (id : str)
  : option Product :=
  MockCustomerDatabase.dict_get products id.

(** [sorted(..., key=rating, reverse=True)]: the sort is stable, so products
    of equal rating keep their order. *)
Fixpoint insert_by_rating (product : Product) (sorted : list Product) : list Product :=
  match sorted with
  | [] => [product]
  | other :: rest =>
      if (rating product <? rating other)%N
      then other :: insert_by_rating product rest
      else product :: sorted
  end.

Definition sorted_by_rating (products : list Product) : list Product :=
  fold_right insert_by_rating [] products.

Definition is_winter_wear (product : Product) : bool :=
  Py.contains (lit "winter") (Py.lower (name product))
  || MockCustomerDatabase.str_eqb (Py.lower (category product)) (lit "clothing").

Definition is_waterproof (product : Product) : bool :=
  existsb (fun feature => Py.contains (lit "waterproof") (Py.lower feature))
          (features product).

Definition in_category (wanted : str) (product : Product) : bool :=
  MockCustomerDatabase.str_eqb (Py.lower (category product)) (Py.lower wanted).

Definition get_recommendations (products : list (str * Product))
    (category weather_condition : option str) : list Product :=
  let recommendations1 :=
    match Py.truthy weather_condition with
    | Some weather =>
        if Py.contains (lit "cold") (Py.lower weather)
           || Py.contains (lit "winter") (Py.lower weather)
        then List.filter is_winter_wear (values products)
        else if Py.contains (lit "rain") (Py.lower weather)
        then List.filter is_waterproof (values products)
        else []
    | None => []
    end in
  let recommendations2 :=
    match recommendations1, Py.truthy category with
    | [], Some wanted => List.filter (in_category wanted) (values products)
    | _, _ => recommendations1
    end in
  match recommendations2 with
  | [] => firstn 3 (sorted_by_rating (values products))
  | _ :: _ => recommendations2
  end.

End MockProductDatabase.

(** ** tools.py *)

Module Tools.

(** The [name] of each tool of [get_tools()], in order. *)
Definition get_tools : list str := [
  lit "order_status"; lit "cancel_order"; lit "process_return";
  lit "search_products"; lit "product_details"; lit "customer_info";
  lit "get_customer_orders"; lit "search_orders_by_email";
  lit "update_preferences"; lit "get_weather";
  lit "product_recommendations"; lit "ask_query"
].

(** [OrderCancelTool._run] *)
Definition OrderCancelTool_run (orders : gmap str MockOrderDatabase.Order)
    (order_id : str) : gmap str MockOrderDatabase.Order * result str :=
  let (orders', outcome) := MockOrderDatabase.cancel_order orders order_id in
  (orders', Ok (lit "RESULT: " ++ MockOrderDatabase.message outcome)).

(** [UpdatePreferencesTool._run]: it looks [update_preferences] up on the
    customer database and calls what it finds with two arguments.  The class
    has no such attribute, and none of those it has can be called with
    two. *)
Definition UpdatePreferencesTool_run (customer_id : str)
    (preferences : list (str * str)) : result str :=
  method ← MockCustomerDatabase.getattr (lit "update_preferences");
  Raise (TypeError (lit "takes 2 positional arguments but 3 were given")).

(** [AskQueryTool._run] *)
Definition AskQueryTool_run : result str :=
  Ok (lit "RESULT: Could you please provide more details or clarify your request so I can assist you better?").

(** [ReturnProcessTool._run], with the draw of [process_return]. *)
Definition ReturnProcessTool_run (orders : gmap str MockOrderDatabase.Order)
    (order_id reason : str) (draw : N) : result str :=
  Ok (lit "RESULT: "
      ++ MockOrderDatabase.message
           (MockOrderDatabase.process_return orders order_id reason draw)).

(** [CustomerInfoTool._run] *)
Definition CustomerInfoTool_run (customers : list (str * MockCustomerDatabase.Customer))
    (customer_id email : option str) : result str :=
  let lookup :=
    match Py.truthy customer_id, Py.truthy email with
    | Some id, _ => Some (MockCustomerDatabase.get_customer_info customers id)
    | None, Some mail => Some (MockCustomerDatabase.get_customer_by_email customers mail)
    | None, None => None
    end in
  match lookup with
  | None => Ok (lit "RESULT: Error - Please provide either customer ID or email address.")
  | Some None =>
      match Py.truthy customer_id with
      | Some id =>
          Ok (lit "RESULT: Customer ID " ++ id
              ++ lit " not found in our system. This customer ID does not exist. Try asking the customer for their email address instead or use the get_customer_orders tool to search for their orders directly.")
      | None =>
          Ok (lit "RESULT: No customer found with email "
              ++ match email with Some mail => mail | None => lit "None" end
              ++ lit ". This email is not registered in our system.")
      end
  | Some (Some customer) =>
      let prefs := MockCustomerDatabase.preferences customer in
      let info :=
        [Py.LF] ++ lit "RESULT: Customer Information Found" ++ [Py.LF]
        ++ lit "Name: " ++ MockCustomerDatabase.name customer ++ [Py.LF]
        ++ lit "Email: " ++ MockCustomerDatabase.email customer ++ [Py.LF]
        ++ lit "Phone: " ++ MockCustomerDatabase.phone customer ++ [Py.LF]
        ++ lit "Address: " ++ MockCustomerDatabase.address customer ++ [Py.LF]
        ++ lit "Loyalty Points: "
        ++ Py.str_of_nat (MockCustomerDatabase.loyalty_points customer) ++ [Py.LF]
        ++ lit "Tier: " ++ MockCustomerDatabase.tier customer ++ [Py.LF]
        ++ [Py.LF]
        ++ lit "Preferences:" ++ [Py.LF]
        ++ lit "  Categories: "
        ++ Py.join (lit ", ") (MockCustomerDatabase.categories prefs) ++ [Py.LF]
        ++ lit "  Brands: "
        ++ Py.join (lit ", ") (MockCustomerDatabase.brands prefs) ++ [Py.LF]
        ++ lit "  Communication: " ++ MockCustomerDatabase.communication prefs ++ [Py.LF]
        ++ [Py.LF]
        ++ lit "Recent Orders: "
        ++ Py.join (lit ", ") (MockCustomerDatabase.order_history customer) ++ [Py.LF] in
      Ok (Py.strip info)
  end.

(** A price of [cents] printed with two decimals, and a rating of [tenths]
    printed as Python prints the float. *)
Definition two_decimals (cents : N) : str :=
  Py.str_of_N (cents / 100) ++ lit "."
  ++ Py.str_of_N ((cents mod 100) / 10) ++ Py.str_of_N (cents mod 10).

Definition one_decimal (tenths : N) : str :=
  Py.str_of_N (tenths / 10) ++ lit "." ++ Py.str_of_N (tenths mod 10).

(** The loop of [ProductRecommendationTool._run] over the products still to
    print. *)
Fixpoint recommendation_lines (products : list MockProductDatabase.Product) : str :=
  match products with
  | [] => []
  | product :: rest =>
      lit "**" ++ MockProductDatabase.name product ++ lit "** - $"
      ++ two_decimals (MockProductDatabase.price product) ++ [Py.LF]
      ++ MockProductDatabase.description product ++ [Py.LF]
      ++ lit "Rating: " ++ one_decimal (MockProductDatabase.rating product)
      ++ lit "/5.0" ++ [Py.LF; Py.LF]
      ++ recommendation_lines rest
  end.

(** [ProductRecommendationTool._run] *)
Definition ProductRecommendationTool_run
    (products : list (str * MockProductDatabase.Product))
    (category weather_condition : option str) : result str :=
  match MockProductDatabase.get_recommendations products category weather_condition with
  | [] => Ok (lit "RESULT: No recommendations available at the moment.")
  | recommendations =>
      Ok (Py.strip (lit "RESULT: Here are some recommended products:" ++ [Py.LF; Py.LF]
                    ++ recommendation_lines (firstn 5 recommendations)))
  end.

End Tools.

(** ** The conversation memory *)

Inductive Message : Type :=
| HumanMessage (content : str)
| AIMessage (content : str).

Module ConversationBufferWindowMemory.

(** Modelled from the spec: the class [ConversationBufferWindowMemory] that
    agent.py constructs with [k=10] is imported from LangChain; its code is
    not under src/.  Following section 3 of the specification, the memory
    is an ordered sequence of turns bounded to the most recent [k]
    exchanges (one user turn and one assistant turn each): appending an
    exchange evicts the oldest entries beyond [2 * k]. *)
Record t : Type := {
  k : nat;
  messages : list Message
}.

Definition new (k : nat) : t := {| k := k; messages := [] |}.

Definition exchange (input output : str) : list Message :=
  [HumanMessage input; AIMessage output].

(** The last [n] entries of [l]. *)
Definition keep_last {A} (n : nat) (l : list A) : list A :=
  skipn (length l - n) l.

(** Modelled from the spec: [save_context] appends one exchange and keeps
    the most recent [k] exchanges. *)
Definition save_context (m : t) (input output : str) : t :=
  {| k := k m;
     messages := keep_last (2 * k m) (messages m ++ exchange input output) |}.

(** Modelled from the spec: [clear] empties the memory. *)
Definition clear (m : t) : t := {| k := k m; messages := [] |}.

End ConversationBufferWindowMemory.

(** ** The language-model client and the agent executor *)

Record ChatGroq : Type := {
  groq_api_key : option str;
  model_name : str;
  temperature : Q;
  max_tokens : nat;
  top_p : Q;
  streaming : bool;
  request_timeout : nat;
  max_retries : nat
}.

(** One thought/action/observation step of a turn. *)
Record Step : Type := {
  step_tool : str;
  step_tool_input : str;
  step_observation : str
}.

(** What a chain is given as conversation history: the text that
    [process_message] renders, or the messages of an attached memory. *)
Inductive ChatHistory : Type :=
| Rendered (text : str)
| FromMemory (messages : list Message).

(** What the client is asked: the probe text of [llm.invoke("Hello")], or the
    agent prompt, given by the values that fill its template. *)
Inductive Prompt : Type :=
| PlainPrompt (text : str)
| AgentPrompt (input : str) (chat_history : ChatHistory) (agent_scratchpad : list Step).

(** The outside world of an agent: the environment variable, the remote
    service behind [ChatGroq], and the tools as the executor calls them
    (tool name to implementation, if registered). *)
Record World : Type := {
  getenv_GROQ_API_KEY : option str;
  ChatGroq_construct : ChatGroq -> result unit;
  ChatGroq_invoke : ChatGroq -> Prompt -> result str;
  tool_named : str -> option (str -> result str)
}.

(** The one memory object of an agent, as the executor refers to it. *)
Inductive MemoryRef : Type := self_memory.

Inductive ParserRef : Type := SafeOutputParser_instance.

(** The keyword arguments of [AgentExecutor(...)]; [agent] is
    [create_react_agent(llm, tools, prompt)], given by its [llm]. *)
Record AgentExecutor : Type := {
  agent_llm : ChatGroq;
  executor_memory : option MemoryRef;
  verbose : bool;
  handle_parsing_errors : bool;
  max_iterations : nat;
  return_intermediate_steps : bool;
  output_parser : option ParserRef
}.

Record Response : Type := {
  output : str;
  intermediate_steps : list Step
}.

Module Executor.

Import ConversationBufferWindowMemory.

(** The text an executor answers with when it stops at its ceiling. *)
Definition CEILING_MESSAGE : str :=
  lit "Agent stopped due to iteration limit or time limit.".

(** Modelled from the spec: resolving a tool name (section 4.2).  An
    unknown name is answered with a not-found observation; a known tool is
    called, and what it raises is not caught here. *)
Definition dispatch (w : World) (tool tool_input : str) : result str :=
  match tool_named w tool with
  | None => Ok (tool ++ lit " not found")
  | Some run => run tool_input
  end.

(** Modelled from the spec: the loop of section 4.3, which is LangChain's
    [AgentExecutor] and not under src/.  Each round calls the backend and
    parses its text; a Finish ends the turn, an Action is dispatched and
    recorded in the scratchpad.  [iterations] rounds are allowed
    ([max_iterations] of the executor); when they are used up the turn ends
    with [CEILING_MESSAGE]. *)
Fixpoint run (w : World) (llm : ChatGroq) (input : str) (history : ChatHistory)
    (iterations : nat) (scratchpad : list Step) : result Response :=
  match iterations with
  | 0 => Ok {| output := CEILING_MESSAGE; intermediate_steps := scratchpad |}
  | S iterations' =>
      text ← ChatGroq_invoke w llm (AgentPrompt input history scratchpad);
      match SafeOutputParser.parse text with
      | AgentFinish out _ =>
          Ok {| output := out; intermediate_steps := scratchpad |}
      | AgentAction tool tool_input _ =>
          observation ← dispatch w tool tool_input;
          run w llm input history iterations'
            (scratchpad ++ [ {| step_tool := tool;
                                step_tool_input := tool_input;
                                step_observation := observation |} ])
      end
  end.

(** [agent_executor.invoke({"input": ..., "chat_history": ...})].  The
    executor is a LangChain chain.  A chain built with [memory=...]
    (agent.py line 90) reads the conversation history from that memory and,
    when its run has returned, itself calls
    [memory.save_context(inputs, outputs)] with the input it was given;
    a run that raises saves nothing. *)
Definition invoke (w : World) (executor : AgentExecutor) (memory : t)
    (input chat_history : str) : t * result Response :=
  let history :=
    match executor_memory executor with
    | Some self_memory => FromMemory (messages memory)
    | None => Rendered chat_history
    end in
  match run w (agent_llm executor) input history (max_iterations executor) [] with
  | Ok response =>
      (match executor_memory executor with
       | Some self_memory => save_context memory input (output response)
       | None => memory
       end,
       Ok response)
  | Raise e => (memory, Raise e)
  end.

End Executor.

(** ** [EcommerceAgent] (agent.py) *)

Record EcommerceAgent : Type := {
  llm : ChatGroq;
  memory : ConversationBufferWindowMemory.t;
  agent_executor : AgentExecutor
}.

Module Agent.

Import ConversationBufferWindowMemory.

Definition primary_llm (key : option str) : ChatGroq :=
  {| groq_api_key := key; model_name := lit "llama3-70b-8192";
     temperature := 0; max_tokens := 1024; top_p := 9 # 10;
     streaming := false; request_timeout := 120; max_retries := 10 |}.

Definition fallback_llm (key : option str) (model : str) : ChatGroq :=
  {| groq_api_key := key; model_name := model;
     temperature := 2 # 10; max_tokens := 1024; top_p := 9 # 10;
     streaming := false; request_timeout := 60; max_retries := 5 |}.

Definition fallback_models : list str :=
  [lit "llama3-8b-8192"; lit "mixtral-8x7b-32768"; lit "gemma2-9b-it"].

Definition get_available_models : list str :=
  [lit "llama3-70b-8192"; lit "llama3-8b-8192"; lit "gemma2-9b-it"].

(** The [try] body of the [for] loop of [_initialize_fallback_llm]. *)
Definition try_model (w : World) (candidate : ChatGroq) : result ChatGroq :=
  _ ← ChatGroq_construct w candidate;
  _ ← ChatGroq_invoke w candidate (PlainPrompt (lit "Hello"));
  Ok candidate.

Fixpoint first_working (w : World) (key : option str) (models : list str)
  : result ChatGroq :=
  match models with
  | [] => Raise (ValueError (lit "Failed to load both primary and all fallback models"))
  | model :: rest =>
      match try_model w (fallback_llm key model) with
      | Ok candidate => Ok candidate
      | Raise _ => first_working w key rest
      end
  end.

Definition _initialize_fallback_llm (w : World) : result ChatGroq :=
  first_working w (getenv_GROQ_API_KEY w) fallback_models.

Definition _initialize_llm (w : World) : result ChatGroq :=
  let attempt :=
    match getenv_GROQ_API_KEY w with
    | None | Some [] =>
        Raise (ValueError (lit "GROQ_API_KEY environment variable not set"))
    | Some key =>
        _ ← ChatGroq_construct w (primary_llm (Some key));
        Ok (primary_llm (Some key))
    end in
  match attempt with
  | Ok client => Ok client
  | Raise _ => _initialize_fallback_llm w
  end.

Definition new_executor (client : ChatGroq) : AgentExecutor :=
  {| agent_llm := client;
     executor_memory := Some self_memory;
     verbose := true;
     handle_parsing_errors := true;
     max_iterations := 5;
     return_intermediate_steps := true;
     output_parser := Some SafeOutputParser_instance |}.

(** [os.environ["GROQ_API_KEY"] = groq_api_key] *)
Definition setenv_GROQ_API_KEY (w : World) (key : str) : World :=
  {| getenv_GROQ_API_KEY := Some key;
     ChatGroq_construct := ChatGroq_construct w;
     ChatGroq_invoke := ChatGroq_invoke w;
     tool_named := tool_named w |}.

(** [__init__]: the world it leaves (the key it was given is exported to
    the environment) and the agent, unless no client could be set up. *)
Definition __init__ (w : World) (groq_api_key : option str)
  : World * result EcommerceAgent :=
  let w' :=
    match groq_api_key with
    | None | Some [] => w
    | Some key => setenv_GROQ_API_KEY w key
    end in
  (w',
   client ← _initialize_llm w';
   Ok {| llm := client;
         memory := new 10;
         agent_executor := new_executor client |}).

Definition HIGH_DEMAND : str :=
  lit "I'm currently experiencing high demand. Please wait a moment and try again.".
Definition AUTH_ISSUE : str :=
  lit "There seems to be an issue with the API authentication. Please contact support.".
Definition TIMED_OUT : str :=
  lit "The request timed out. Please try again with a shorter message.".
Definition APOLOGY : str :=
  lit "I apologize, but I encountered an error while processing your request: ".

(** The [except] branch of [process_message], from [str(e)] to
    [error_msg]. *)
Definition classify (e : str) : str :=
  let error_msg := APOLOGY ++ e in
  if Py.contains (lit "rate limit") (Py.lower e) then HIGH_DEMAND
  else if Py.contains (lit "authentication") (Py.lower e)
          || Py.contains (lit "api key") (Py.lower e) then AUTH_ISSUE
  else if Py.contains (lit "timeout") (Py.lower e) then TIMED_OUT
  else error_msg.

(** The loop over [self.memory.chat_memory.messages]. *)
Fixpoint render_history (history : list Message) : str :=
  match history with
  | [] => []
  | HumanMessage content :: rest =>
      lit "Human: " ++ content ++ [Py.LF] ++ render_history rest
  | AIMessage content :: rest =>
      lit "AI: " ++ content ++ [Py.LF] ++ render_history rest
  end.

(** [customer_context] is given by [repr], the text Python prints for the
    dictionary; [None] and the empty dictionary are [None]. *)
Definition enhance (message : str) (customer_context : option str) : str :=
  match customer_context with
  | Some repr => message ++ (Py.LF :: lit "Customer Context: ") ++ repr
  | None => message
  end.

Definition with_memory (self : EcommerceAgent) (m : t) : EcommerceAgent :=
  {| llm := llm self; memory := m; agent_executor := agent_executor self |}.

Definition process_message (w : World) (self : EcommerceAgent) (message : str)
    (customer_context : option str) : EcommerceAgent * str :=
  let enhanced_message := enhance message customer_context in
  let chat_history := render_history (messages (memory self)) in
  match Executor.invoke w (agent_executor self) (memory self)
          enhanced_message chat_history with
  | (memory1, Ok response) =>
      (with_memory self (save_context memory1 message (output response)),
       output response)
  | (memory1, Raise e) =>
      let error_msg := classify (exn_str e) in
      (with_memory self (save_context memory1 message error_msg), error_msg)
  end.

Definition reset_conversation (self : EcommerceAgent) : EcommerceAgent :=
  with_memory self (clear (memory self)).

Inductive HistoryEntry : Type :=
| user_says (content : str)
| assistant_says (content : str).

Definition get_conversation_history (self : EcommerceAgent) : list HistoryEntry :=
  map (fun msg => match msg with
                  | HumanMessage content => user_says content
                  | AIMessage content => assistant_says content
                  end)
      (messages (memory self)).

(** The client [switch_model] builds for [model]. *)
Definition switch_llm (w : World) (model : str) : ChatGroq :=
  {| groq_api_key := getenv_GROQ_API_KEY w; model_name := model;
     temperature := 2 # 10; max_tokens := 1024; top_p := 9 # 10;
     streaming := false; request_timeout := 60; max_retries := 3 |}.

Definition switch_model (w : World) (self : EcommerceAgent) (model : str)
  : EcommerceAgent * bool :=
  match try_model w (switch_llm w model) with
  | Ok new_llm =>
      ({| llm := new_llm;
          memory := memory self;
          agent_executor :=
            {| agent_llm := new_llm;
               executor_memory := Some self_memory;
               verbose := true;
               handle_parsing_errors := true;
               max_iterations := 10;
               return_intermediate_steps := true;
               output_parser := None |} |},
       true)
  | Raise _ => (self, false)
  end.

End Agent.

(** ** [CustomerContext] (agent.py) *)

Module CustomerContext.

(** [self.sessions] maps a session id to its context, a dictionary from keys
    to texts. *)
Definition get_context (sessions : gmap str (gmap str str)) (session_id : str)
  : gmap str str :=
  default ∅ (sessions !! session_id).

(** [update_context]: the session is created when missing, then
    [dict.update] writes the keys of [context] over it. *)
Definition update_context (sessions : gmap str (gmap str str)) (session_id : str)
    (context : gmap str str) : gmap str (gmap str str) :=
  <[session_id := context ∪ default ∅ (sessions !! session_id)]> sessions.

Definition set_customer_id (sessions : gmap str (gmap str str))
    (session_id customer_id : str) : gmap str (gmap str str) :=
  update_context sessions session_id {[ lit "customer_id" := customer_id ]}.

Definition set_customer_email (sessions : gmap str (gmap str str))
    (session_id email : str) : gmap str (gmap str str) :=
  update_context sessions session_id {[ lit "customer_email" := email ]}.

End CustomerContext.

(** ** Vocabulary of the properties *)

(** An occurrence of [sub] in [s]: what comes before it and what comes
    after. *)
Definition occurs_at (sub s pre post : str) : Prop := s = pre ++ sub ++ post.

Definition first_occurrence (sub s pre post : str) : Prop :=
  occurs_at sub s pre post
  /\ forall pre' post', occurs_at sub s pre' post' -> length pre <= length pre'.

Definition last_occurrence (sub s pre post : str) : Prop :=
  occurs_at sub s pre post
  /\ forall pre' post', occurs_at sub s pre' post' -> length pre' <= length pre.

(** [m] has no border: no proper non-empty suffix of [m] is a prefix of it,
    so two occurrences of [m] never overlap. *)
Definition border_free (m : str) : bool :=
  forallb (fun d => negb (Py.startswith (skipn d m) m)) (seq 1 (length m - 1)).

(** [t] neither starts nor ends with a whitespace character. *)
Definition trimmed (t : str) : Prop :=
  (forall c r, t = c :: r -> Py.isspace c = false)
  /\ (forall r c, t = r ++ [c] -> Py.isspace c = false).

(** [t] is [s] without its leading and trailing whitespace. *)
Definition trimmed_of (s t : str) : Prop :=
  exists ws1 ws2,
    s = ws1 ++ t ++ ws2
    /\ forallb Py.isspace ws1 = true /\ forallb Py.isspace ws2 = true
    /\ trimmed t.

(** The rest of the current line, and what follows it. *)
Fixpoint until_lf (s : str) : str * str :=
  match s with
  | [] => ([], [])
  | c :: s' =>
      if Ascii.eqb c Py.LF then ([], s)
      else let (g, r) := until_lf s' in (c :: g, r)
  end.

Definition at_line_end (rest : str) : Prop :=
  rest = [] \/ exists r, rest = Py.LF :: r.

(** The action pair of the specification: after [pre], a line that ends
    with [Action: tool], then the line [Action Input: input]. *)
Definition action_pair_at (text pre tool input rest : str) : Prop :=
  text = pre ++ lit "Action: " ++ tool
             ++ Py.LF :: lit "Action Input: " ++ input ++ rest
  /\ ~ In Py.LF tool /\ ~ In Py.LF input /\ at_line_end rest.

(** The entries of a list of exchanges, oldest first. *)
Definition entries (turns : list (str * str)) : list Message :=
  concat (map (fun turn => ConversationBufferWindowMemory.exchange (fst turn) (snd turn))
              turns).

(** The probe of a client: it can be constructed and it answers
    [Hello]. *)
Definition probe_ok (w : World) (client : ChatGroq) : bool :=
  negb (raises (ChatGroq_construct w client))
  && negb (raises (ChatGroq_invoke w client (PlainPrompt (lit "Hello")))).

(** A client that answers the trivial call. *)
Definition working (w : World) (client : ChatGroq) : Prop :=
  raises (ChatGroq_invoke w client (PlainPrompt (lit "Hello"))) = false.

(** What the application asks of an agent: a message to process, a reset
    of the conversation, a switch of model. *)
Inductive Request : Type :=
| Say (message : str) (customer_context : option str)
| ClearChat
| SwitchTo (model : str).

Definition serve (w : World) (self : EcommerceAgent) (request : Request)
  : EcommerceAgent :=
  match request with
  | Say message customer_context =>
      fst (Agent.process_message w self message customer_context)
  | ClearChat => Agent.reset_conversation self
  | SwitchTo model => fst (Agent.switch_model w self model)
  end.

Definition serve_all (w : World) (self : EcommerceAgent) (requests : list Request)
  : EcommerceAgent :=
  fold_left (serve w) requests self.

(** What [search_products] looks for: the query inside the name, both in
    lower case, and, when a category is given, that category in lower
    case. *)
Definition matches_search (query : str) (category : option str)
    (product : MockProductDatabase.Product) : bool :=
  Py.contains (Py.lower query) (Py.lower (MockProductDatabase.name product))
  && match Py.truthy category with
     | Some wanted =>
         bool_decide (Py.lower wanted
                      = Py.lower (MockProductDatabase.category product))
     | None => true
     end.

(** [better a b]: [b] is not rated above [a]. *)
Definition better (a b : MockProductDatabase.Product) : Prop :=
  (MockProductDatabase.rating b <= MockProductDatabase.rating a)%N.

(** The key [__init__] works with: the one it is given, else the one of the
    environment. *)
Definition effective_key (w : World) (groq_api_key : option str) : option str :=
  match Py.truthy groq_api_key with
  | Some key => Some key
  | None => getenv_GROQ_API_KEY w
  end.

(** What every agent in use satisfies: the executor runs the client of the
    agent and shares its memory, the window is 10, the ceiling is the one of
    [__init__] or the one of [switch_model]. *)
Definition well_formed (self : EcommerceAgent) : Prop :=
  agent_llm (agent_executor self) = llm self
  /\ executor_memory (agent_executor self) = Some self_memory
  /\ ConversationBufferWindowMemory.k (memory self) = 10
  /\ (max_iterations (agent_executor self) = 5
      \/ max_iterations (agent_executor self) = 10).

(** The memory holds whole exchanges. *)
Definition whole_exchanges (m : ConversationBufferWindowMemory.t) : Prop :=
  exists turns, ConversationBufferWindowMemory.messages m = entries turns.

(** The last model of [models] whose client passes the probe. *)
Definition last_passing (w : World) (models : list str) : option str :=
  List.find (fun model => probe_ok w (Agent.switch_llm w model)) (rev models).

(** ** Sample worlds *)

Module Sample.

Definition API_KEY : str := lit "gsk_test".

Definition action_text : str :=
  lit "Action: ask_query" ++ Py.LF :: lit "Action Input: more".

(** The one tool the sample services ask for. *)
Definition tools (name : str) : option (str -> result str) :=
  if bool_decide (name = lit "ask_query") then Some (fun _ => Tools.AskQueryTool_run)
  else None.

(** A service that answers every agent prompt with a final answer. *)
Definition answering : World :=
  {| getenv_GROQ_API_KEY := Some API_KEY;
     ChatGroq_construct := fun _ => Ok tt;
     ChatGroq_invoke := fun _ _ => Ok (lit "Final Answer: Hello!");
     tool_named := tools |}.

(** A service that answers every agent prompt with an action. *)
Definition always_action : World :=
  {| getenv_GROQ_API_KEY := Some API_KEY;
     ChatGroq_construct := fun _ => Ok tt;
     ChatGroq_invoke := fun _ prompt =>
       match prompt with
       | PlainPrompt _ => Ok (lit "Hello!")
       | AgentPrompt _ _ _ => Ok action_text
       end;
     tool_named := tools |}.

(** A service that fails every call with the given error text. *)
Definition failing (error : str) : World :=
  {| getenv_GROQ_API_KEY := Some API_KEY;
     ChatGroq_construct := fun _ => Ok tt;
     ChatGroq_invoke := fun _ _ => Raise (BackendError error);
     tool_named := tools |}.

(** The agent [__init__] builds in a world where the primary client can be
    constructed. *)
Definition agent : EcommerceAgent :=
  {| llm := Agent.primary_llm (Some API_KEY);
     memory := ConversationBufferWindowMemory.new 10;
     agent_executor := Agent.new_executor (Agent.primary_llm (Some API_KEY)) |}.

(** A text with an example marker inside a thought and an action pair, both
    before the final answer. *)
Definition reasoning_then_answer : str :=
  lit "Thought: I end with Final Answer: <reply>" ++ Py.LF
  :: lit "Action: order_status" ++ Py.LF
  :: lit "Action Input: ORD001" ++ Py.LF
  :: lit "Final Answer:  Your order has shipped. ".

(** A reply with no marker and no action. *)
Definition plain_reply : str := lit "  I can help with orders and products.  ".

(** An action pair with blanks around the tool name and after the input. *)
Definition spaced_action : str :=
  lit "Thought: look it up" ++ Py.LF
  :: lit "Action:  order_status " ++ Py.LF
  :: lit "Action Input: ORD001  " ++ Py.LF
  :: lit "Observation: pending".

(** Six messages of a signed-in customer, one per turn. *)
Definition six_turns : list (str * option str) :=
  map (fun message => (message, Some (lit "{'customer_id': 'CUST001'}")))
      [lit "q1"; lit "q2"; lit "q3"; lit "q4"; lit "q5"; lit "q6"].

(** A service that cannot be reached, with a key in the environment. *)
Definition unreachable : World := failing (lit "Connection error.").

(** A service on which only [gemma2-9b-it] can be constructed. *)
Definition only_gemma : World :=
  {| getenv_GROQ_API_KEY := Some API_KEY;
     ChatGroq_construct := fun client =>
       if bool_decide (model_name client = lit "gemma2-9b-it") then Ok tt
       else Raise (BackendError (lit "model_decommissioned"));
     ChatGroq_invoke := fun _ _ => Ok (lit "Hello!");
     tool_named := tools |}.

End Sample.

(** * Properties *)

(** ** Facts about the [str] methods *)

Section StrFacts.

Import Py.

Lemma startswith_iff (p s : str) :
  startswith p s = true <-> exists r, s = p ++ r.
Proof.
  revert s. induction p as [|a p IH]; intros s; simpl.
  - split; eauto.
  - destruct s as [|b s].
    + split; [discriminate | intros [r Hr]; discriminate].
    + rewrite andb_true_iff, Ascii.eqb_eq, IH. split.
      * intros [-> [r ->]]. eauto.
      * intros [r Hr]. injection Hr as -> ->. eauto.
Qed.

Lemma startswith_app (p r : str) : startswith p (p ++ r) = true.
Proof. apply startswith_iff. eauto. Qed.

Lemma find_None (sub s : str) :
  find sub s = None <-> forall pre post, ~ occurs_at sub s pre post.
Proof.
  unfold occurs_at. induction s as [|c s IH]; simpl.
  - destruct (startswith sub []) eqn:E.
    + split; [discriminate|]. intros H. apply startswith_iff in E as [r Hr].
      exfalso. apply (H [] r). exact Hr.
    + split; [|reflexivity]. intros _ pre post H.
      assert (startswith sub [] = true) as E'; [|congruence].
      destruct pre; [|discriminate]. apply startswith_iff. eauto.
  - destruct (startswith sub (c :: s)) eqn:E.
    + split; [discriminate|]. intros H. apply startswith_iff in E as [r Hr].
      exfalso. apply (H [] r). exact Hr.
    + destruct (find sub s) as [j|] eqn:F; simpl.
      * split; [discriminate|]. intros H. exfalso.
        destruct IH as [_ IH].
        assert (Some j = None) as X; [|discriminate].
        apply IH. intros pre post ->. apply (H (c :: pre) post). reflexivity.
      * split; [|reflexivity]. intros _ pre post H.
        destruct pre as [|c' pre].
        -- assert (startswith sub (c :: s) = true); [|congruence].
           apply startswith_iff. eauto.
        -- injection H as -> ->. destruct IH as [IH _].
           apply (IH eq_refl pre post). reflexivity.
Qed.

Lemma find_Some (sub s : str) (j : nat) :
  find sub s = Some j ->
  first_occurrence sub s (firstn j s) (skipn (j + length sub) s)
  /\ j + length sub <= length s.
Proof.
  unfold first_occurrence, occurs_at. revert j.
  induction s as [|c s IH]; intros j; simpl.
  - destruct (startswith sub []) eqn:E; [|discriminate].
    intros [= <-]. apply startswith_iff in E as [r Hr].
    destruct sub; [|discriminate]. simpl. split; [split|]; auto with lia.
  - destruct (startswith sub (c :: s)) eqn:E.
    + intros [= <-]. apply startswith_iff in E as [r Hr].
      assert (length sub <= length (c :: s)) as Hlen
        by (rewrite Hr, length_app; lia).
      split; [split|]; [| intros; simpl; lia | exact Hlen].
      rewrite Hr at 2. simpl. rewrite Hr, drop_app_length. reflexivity.
    + destruct (find sub s) as [k|] eqn:F; [|discriminate].
      simpl. intros [= <-]. destruct (IH k eq_refl) as [[Hs Hmin] Hlen].
      simpl. split; [split|]; [congruence| |lia].
      intros pre' post' H. destruct pre' as [|c' pre'].
      * assert (startswith sub (c :: s) = true); [|congruence].
        apply startswith_iff. eauto.
      * injection H as -> ->. simpl.
        specialize (Hmin pre' post' eq_refl).
        rewrite length_take in *. lia.
Qed.

Lemma contains_iff (sub s : str) :
  contains sub s = true <-> exists pre post, occurs_at sub s pre post.
Proof.
  unfold contains. destruct (find sub s) as [j|] eqn:F.
  - split; [|reflexivity]. intros _.
    apply find_Some in F as [[H _] _]. eauto.
  - split; [discriminate|]. intros (pre & post & H).
    exfalso. eapply find_None; eauto.
Qed.

End StrFacts.

(** ** Splitting at a marker that cannot overlap itself *)

Section SplitFacts.

Import Py.

Lemma app_eq_app_le {A} (l1 l2 l3 l4 : list A) :
  l1 ++ l2 = l3 ++ l4 -> length l1 <= length l3 ->
  exists z, l3 = l1 ++ z /\ l2 = z ++ l4.
Proof.
  revert l3. induction l1 as [|a l1 IH]; intros l3 H Hlen; simpl in *.
  - eauto.
  - destruct l3 as [|b l3]; simpl in *; [lia|].
    injection H as -> H. destruct (IH l3 H) as (z & -> & ->); [lia|]. eauto.
Qed.

Lemma no_overlap (m s pre1 post1 pre2 post2 : str) :
  border_free m = true ->
  occurs_at m s pre1 post1 -> occurs_at m s pre2 post2 ->
  length pre1 < length pre2 -> length pre1 + length m <= length pre2.
Proof.
  unfold occurs_at. intros Hbf -> H Hlt.
  destruct (le_lt_dec (length pre1 + length m) (length pre2)) as [|Hov]; [assumption|].
  exfalso.
  destruct (app_eq_app_le _ _ _ _ H) as (x & -> & Hm); [lia|].
  rewrite length_app in *.
  assert (0 < length x < length m) as Hd by lia.
  apply (f_equal (skipn (length x))) in Hm.
  rewrite drop_app_length in Hm.
  rewrite skipn_app in Hm.
  replace (length x - length m) with 0 in Hm by lia. simpl in Hm.
  destruct (app_eq_app_le _ _ _ _ Hm) as (z & Hz & _).
  { rewrite length_skipn. lia. }
  unfold border_free in Hbf. rewrite forallb_forall in Hbf.
  specialize (Hbf (length x)). rewrite in_seq in Hbf.
  assert (startswith (drop (length x) m) m = true) as E.
  { apply startswith_iff. eauto. }
  rewrite E in Hbf. simpl in Hbf. discriminate Hbf. lia.
Qed.

Lemma index_last_cons {A} (x y : A) (l : list A) :
  index_last (x :: y :: l) = index_last (y :: l).
Proof.
  unfold index_last. simpl.
  destruct (rev l ++ [y]) eqn:E; [destruct (rev l); discriminate|]. reflexivity.
Qed.

Lemma occurs_at_drop (m s pre post : str) (n : nat) :
  occurs_at m s pre post -> n <= length pre ->
  occurs_at m (skipn n s) (skipn n pre) post.
Proof.
  unfold occurs_at. intros -> Hn. rewrite skipn_app.
  replace (n - length pre) with 0 by lia. reflexivity.
Qed.

Lemma occurs_at_undrop (m s pre post : str) (n : nat) :
  occurs_at m (skipn n s) pre post -> n <= length s ->
  occurs_at m s (firstn n s ++ pre) post /\ length (firstn n s ++ pre) = n + length pre.
Proof.
  unfold occurs_at. intros H Hn. split.
  - rewrite <- app_assoc, <- H. symmetry. apply firstn_skipn.
  - rewrite length_app, length_firstn. lia.
Qed.

(** The last piece of the split is what follows the last occurrence. *)
Lemma split_from_last (m : str) :
  border_free m = true -> 0 < length m ->
  forall fuel s, length s <= fuel -> contains m s = true ->
  exists pre post,
    last_occurrence m s pre post
    /\ index_last (split_from fuel m s) = Ok post.
Proof.
  intros Hbf Hm fuel. induction fuel as [|fuel IH]; intros s Hfuel Hc.
  - apply contains_iff in Hc as (pre & post & ->).
    rewrite !length_app in Hfuel. lia.
  - simpl. destruct (find m s) as [j|] eqn:F.
    2:{ unfold contains in Hc. rewrite F in Hc. discriminate. }
    apply find_Some in F as [[Hocc Hfirst] Hlen].
    set (s' := skipn (j + length m) s) in *.
    assert (length s' <= fuel) as Hfuel'.
    { unfold s'. rewrite length_skipn. lia. }
    destruct (contains m s') eqn:Hc'.
    + destruct (IH s' Hfuel' Hc') as (pre' & post & [Hocc' Hlast'] & Hidx).
      destruct (occurs_at_undrop _ _ _ _ _ Hocc' Hlen) as [Hocc2 Hlen2].
      exists (firstn (j + length m) s ++ pre'), post. split; [split|].
      * exact Hocc2.
      * intros p q Hpq. rewrite Hlen2.
        destruct (le_lt_dec (j + length m) (length p)) as [Hge|]; [|lia].
        pose proof (occurs_at_drop _ _ _ _ _ Hpq Hge) as Hd.
        apply Hlast' in Hd. rewrite length_skipn in Hd. lia.
      * destruct (split_from fuel m s') as [|y l] eqn:E.
        { unfold index_last in Hidx. discriminate. }
        rewrite index_last_cons. exact Hidx.
    + assert (split_from fuel m s' = [s']) as ->.
      { destruct fuel; simpl; [reflexivity|].
        unfold contains in Hc'. destruct (find m s'); [discriminate|reflexivity]. }
      exists (firstn j s), s'. split; [split|].
      * exact Hocc.
      * intros p q Hpq. pose proof (Hfirst p q Hpq) as Hle.
        destruct (Nat.eq_dec (length (firstn j s)) (length p)) as [->|Hne]; [lia|].
        exfalso.
        assert (length (firstn j s) + length m <= length p) as Hge.
        { eapply no_overlap; eauto. lia. }
        rewrite length_firstn in Hge.
        assert (j + length m <= length p) as Hge' by lia.
        pose proof (occurs_at_drop _ _ _ _ _ Hpq Hge') as Hd.
        assert (contains m s' = true); [|congruence].
        apply contains_iff. eauto.
      * reflexivity.
Qed.

Lemma find_nil (m : str) : 0 < length m -> find m [] = None.
Proof. destruct m; simpl; [lia | reflexivity]. Qed.

(** Any fuel from [length s] on gives the same pieces: the bound used by
    [split] is enough. *)
Lemma split_from_fuel (m : str) :
  0 < length m ->
  forall fuel1 fuel2 s, length s <= fuel1 -> length s <= fuel2 ->
  split_from fuel1 m s = split_from fuel2 m s.
Proof.
  intros Hm fuel1.
  induction fuel1 as [|fuel1 IH]; intros fuel2 s H1 H2.
  - destruct s; [|simpl in H1; lia].
    destruct fuel2; cbn [split_from]; [reflexivity|].
    rewrite find_nil by assumption. reflexivity.
  - destruct fuel2 as [|fuel2].
    + destruct s; [|simpl in H2; lia].
      cbn [split_from]. rewrite find_nil by assumption. reflexivity.
    + cbn [split_from]. destruct (find m s) as [j|] eqn:F; [|reflexivity].
      apply find_Some in F as [_ Hlen]. f_equal.
      apply IH; rewrite length_skipn; lia.
Qed.

End SplitFacts.

(** ** [strip] trims *)

Section StripFacts.

Import Py.

Lemma lstrip_spec (s : str) :
  exists ws, s = ws ++ lstrip s /\ forallb isspace ws = true
             /\ forall c r, lstrip s = c :: r -> isspace c = false.
Proof.
  induction s as [|c s (ws & Hs & Hws & Hhd)]; simpl.
  - exists []. repeat split; auto. discriminate.
  - destruct (isspace c) eqn:E.
    + exists (c :: ws). simpl. rewrite E, Hws. repeat split; auto. congruence.
    + exists []. repeat split; auto. intros c' r [= <- _]. exact E.
Qed.

Lemma rstrip_spec (s : str) :
  exists ws, s = rstrip s ++ ws /\ forallb isspace ws = true
             /\ forall r c, rstrip s = r ++ [c] -> isspace c = false.
Proof.
  unfold rstrip. destruct (lstrip_spec (rev s)) as (ws & Hs & Hws & Hhd).
  exists (rev ws). repeat split.
  - rewrite <- rev_app_distr, <- Hs, rev_involutive. reflexivity.
  - rewrite forallb_forall in *. intros x Hx. apply Hws, in_rev, Hx.
  - intros r c H. apply (f_equal (@rev ascii)) in H.
    rewrite rev_involutive, rev_app_distr in H. simpl in H. eauto.
Qed.

Lemma strip_trimmed (s : str) : trimmed_of s (strip s).
Proof.
  unfold strip.
  destruct (lstrip_spec s) as (ws1 & Hs & Hws1 & Hhd).
  destruct (rstrip_spec (lstrip s)) as (ws2 & Hl & Hws2 & Htl).
  exists ws1, ws2. repeat split; auto.
  - rewrite <- Hl. exact Hs.
  - intros c r H. rewrite H in Hl. simpl in Hl. eauto.
Qed.

Lemma lstrip_spaces (ws u : str) :
  forallb isspace ws = true -> lstrip (ws ++ u) = lstrip u.
Proof.
  induction ws as [|c ws IH]; simpl; [reflexivity|].
  intros H. apply andb_true_iff in H as [-> H]. auto.
Qed.

Lemma lstrip_id (u : str) :
  (forall c r, u = c :: r -> isspace c = false) -> lstrip u = u.
Proof.
  destruct u as [|c r]; [reflexivity|]. simpl. intros H.
  rewrite (H c r eq_refl). reflexivity.
Qed.

(** What is trimmed off is determined: [strip s] is the only answer. *)
Lemma trimmed_of_unique (s t : str) : trimmed_of s t -> t = strip s.
Proof.
  intros (ws1 & ws2 & -> & H1 & H2 & Hhd & Htl).
  assert (forallb isspace (rev ws2) = true) as H2'.
  { rewrite forallb_forall in *. intros x Hx. apply H2, in_rev, Hx. }
  unfold strip, rstrip. rewrite lstrip_spaces by assumption.
  destruct t as [|c t].
  - simpl. rewrite <- (app_nil_r ws2) at 1. rewrite lstrip_spaces by assumption.
    reflexivity.
  - rewrite (lstrip_id ((c :: t) ++ ws2)).
    2:{ intros c' r [= <- _]. eauto. }
    rewrite rev_app_distr, lstrip_spaces by assumption.
    rewrite lstrip_id, rev_involutive; [reflexivity|].
    intros c' r H. apply (f_equal (@rev ascii)) in H.
    rewrite rev_involutive in H. simpl in H. eauto.
Qed.

End StripFacts.

(** ** What the action pattern matches *)

Section ReFacts.

Import Py Re.

Lemma until_lf_spec (s : str) :
  s = fst (until_lf s) ++ snd (until_lf s)
  /\ ~ In LF (fst (until_lf s)) /\ at_line_end (snd (until_lf s)).
Proof.
  unfold at_line_end. induction s as [|c s (Hs & Hg & Hr)]; simpl.
  - auto.
  - destruct (Ascii.eqb c LF) eqn:E; simpl.
    + apply Ascii.eqb_eq in E as ->. repeat split; eauto.
    + apply Ascii.eqb_neq in E. destruct (until_lf s) as [g r]. simpl in *.
      repeat split; [congruence | intros [?|?]; auto | exact Hr].
Qed.

Lemma until_lf_unique (g r : str) :
  ~ In LF g -> at_line_end r -> until_lf (g ++ r) = (g, r).
Proof.
  intros Hg Hr. induction g as [|c g IH]; simpl.
  - destruct Hr as [-> | [r' ->]]; reflexivity.
  - simpl in Hg. destruct (Ascii.eqb c LF) eqn:E.
    + apply Ascii.eqb_eq in E. tauto.
    + rewrite IH by tauto. reflexivity.
Qed.

Lemma match_here_chars (l : str) (p : list tok) (s : str) :
  match_here (chars l ++ p) s
  = if startswith l s then match_here p (skipn (length l) s) else None.
Proof.
  revert s. induction l as [|a l IH]; intros s; simpl.
  - reflexivity.
  - destruct s as [|b s]; [reflexivity|].
    destruct (Ascii.eqb a b); simpl; [apply IH | reflexivity].
Qed.

Lemma match_here_group (p : list tok) (s : str) :
  match_here (DotStarGroup :: p) s
  = let stop := option_map (cons []) (match_here p s) in
    match s with
    | c :: s' =>
        if Ascii.eqb c LF then stop
        else match match_here (DotStarGroup :: p) s' with
             | Some (g :: gs) => Some ((c :: g) :: gs)
             | _ => stop
             end
    | [] => stop
    end.
Proof. destruct s; reflexivity. Qed.

(** A group at the end of the pattern takes the rest of the line. *)
Lemma match_here_last_group (s : str) :
  match_here [DotStarGroup] s = Some [fst (until_lf s)].
Proof.
  induction s as [|c s IH]; [reflexivity|].
  rewrite match_here_group. cbn [until_lf].
  destruct (Ascii.eqb c LF); [reflexivity|].
  rewrite IH. destruct (until_lf s). reflexivity.
Qed.

(** A group followed by a line feed takes the rest of the line, and only
    that: backtracking to a shorter capture never meets a line feed. *)
Lemma match_here_group_lf (p : list tok) (s : str) :
  match_here (DotStarGroup :: Chr LF :: p) s
  = match snd (until_lf s) with
    | _ :: r' => option_map (cons (fst (until_lf s))) (match_here p r')
    | [] => None
    end.
Proof.
  induction s as [|c s IH]; [reflexivity|].
  rewrite match_here_group. cbn [until_lf].
  destruct (Ascii.eqb c LF) eqn:E.
  - apply Ascii.eqb_eq in E as ->. simpl. reflexivity.
  - rewrite IH. destruct (until_lf s) as [g r]. cbn [fst snd].
    destruct r as [|c' r'].
    + cbn [match_here]. rewrite Ascii.eqb_sym, E. reflexivity.
    + destruct (match_here p r'); cbn [option_map match_here]; [reflexivity|].
      rewrite Ascii.eqb_sym, E. reflexivity.
Qed.

End ReFacts.

Section ActionFacts.

Import Py Re SafeOutputParser.

Lemma match_action (s : str) :
  match_here ACTION_RE s
  = if startswith (lit "Action: ") s then
      let t := skipn 8 s in
      match snd (until_lf t) with
      | _ :: r' =>
          if startswith (lit "Action Input: ") r'
          then Some [fst (until_lf t); fst (until_lf (skipn 14 r'))]
          else None
      | [] => None
      end
    else None.
Proof.
  unfold ACTION_RE. rewrite match_here_chars.
  destruct (startswith (lit "Action: ") s); [|reflexivity].
  change (length (lit "Action: ")) with 8.
  change (chars (LF :: lit "Action Input: ")) with (Chr LF :: chars (lit "Action Input: ")).
  cbn [app]. rewrite match_here_group_lf. cbv zeta.
  destruct (snd (until_lf (skipn 8 s))) as [|c r']; [reflexivity|].
  rewrite match_here_chars.
  destruct (startswith (lit "Action Input: ") r'); [|reflexivity].
  rewrite match_here_last_group. reflexivity.
Qed.

Lemma match_action_iff (s : str) (gs : list str) :
  match_here ACTION_RE s = Some gs
  <-> exists tool input rest,
        gs = [tool; input] /\ action_pair_at s [] tool input rest.
Proof.
  rewrite match_action. unfold action_pair_at. split.
  - destruct (startswith (lit "Action: ") s) eqn:E1; [|discriminate].
    apply startswith_iff in E1 as [t ->].
    cbv zeta. replace (skipn 8 (lit "Action: " ++ t)) with t by reflexivity.
    destruct (until_lf_spec t) as (Ht & Hg1 & Hr1).
    destruct (until_lf t) as [g1 r1]. cbn [fst snd] in *.
    destruct r1 as [|c r']; [discriminate|].
    destruct Hr1 as [|[r [= -> <-]]]; [discriminate|].
    destruct (startswith (lit "Action Input: ") r') eqn:E2; [|discriminate].
    apply startswith_iff in E2 as [u ->].
    replace (skipn 14 (lit "Action Input: " ++ u)) with u by reflexivity.
    destruct (until_lf_spec u) as (Hu & Hg2 & Hr2).
    destruct (until_lf u) as [g2 r2]. cbn [fst snd] in *.
    intros [= <-]. exists g1, g2, r2. repeat split; auto.
    rewrite Ht, Hu. reflexivity.
  - intros (tool & input & rest & -> & Hs & Htool & Hinput & Hrest).
    cbn [app] in Hs. subst s. rewrite startswith_app. cbv zeta.
    replace (skipn 8 (lit "Action: " ++ tool ++ LF :: lit "Action Input: " ++ input ++ rest))
      with (tool ++ LF :: lit "Action Input: " ++ input ++ rest) by reflexivity.
    rewrite until_lf_unique; [|assumption|right; eauto].
    cbn [fst snd]. rewrite startswith_app.
    replace (skipn 14 (lit "Action Input: " ++ input ++ rest))
      with (input ++ rest) by reflexivity.
    rewrite until_lf_unique by assumption. reflexivity.
Qed.

Lemma search_None (p : list tok) (s : str) :
  search p s = None <-> forall pre s', s = pre ++ s' -> match_here p s' = None.
Proof.
  induction s as [|c s IH]; cbn [search].
  - destruct (match_here p []) eqn:E.
    + split; [discriminate|]. intros H. rewrite <- E. apply (H [] []). reflexivity.
    + split; [|reflexivity]. intros _ pre s' H.
      symmetry in H. apply app_eq_nil in H as [_ ->]. exact E.
  - destruct (match_here p (c :: s)) eqn:E.
    + split; [discriminate|]. intros H. rewrite <- E. apply (H [] (c :: s)). reflexivity.
    + rewrite IH. split.
      * intros H pre s' Hs. destruct pre as [|c' pre]; simpl in Hs.
        -- subst s'. exact E.
        -- injection Hs as -> ->. eapply H. reflexivity.
      * intros H pre s' ->. apply (H (c :: pre) s'). reflexivity.
Qed.

Lemma search_Some (p : list tok) (s : str) (gs : list str) :
  search p s = Some gs ->
  exists pre s',
    s = pre ++ s' /\ match_here p s' = Some gs
    /\ forall pre' s'', s = pre' ++ s'' -> length pre' < length pre ->
                        match_here p s'' = None.
Proof.
  induction s as [|c s IH]; cbn [search].
  - destruct (match_here p []) eqn:E; [|discriminate].
    intros [= <-]. exists [], []. repeat split; auto. simpl. intros. lia.
  - destruct (match_here p (c :: s)) eqn:E.
    + intros [= <-]. exists [], (c :: s). repeat split; auto. simpl. intros. lia.
    + intros H. destruct (IH H) as (pre & s' & -> & Hm & Hmin).
      exists (c :: pre), s'. repeat split; auto.
      intros pre' s'' Hs Hlt. destruct pre' as [|c' pre']; simpl in *.
      * subst s''. exact E.
      * injection Hs as -> Hs. apply (Hmin pre' s'' Hs). lia.
Qed.

End ActionFacts.

(** ** The parser *)

Section ParserFacts.

Import Py Re SafeOutputParser.

Lemma FINAL_ANSWER_border_free : border_free FINAL_ANSWER = true.
Proof. vm_compute. reflexivity. Qed.

Lemma parse_body_marker (text : str) :
  contains FINAL_ANSWER text = true ->
  exists pre post,
    last_occurrence FINAL_ANSWER text pre post
    /\ parse_body text = Ok (AgentFinish (strip post) text).
Proof.
  intros Hc. unfold parse_body. rewrite Hc.
  destruct (split_from_last FINAL_ANSWER FINAL_ANSWER_border_free
              ltac:(simpl; lia) (length text) text (le_n _) Hc)
    as (pre & post & Hlast & Hidx).
  exists pre, post. split; [exact Hlast|].
  change (split FINAL_ANSWER text)
    with (Ok (split_from (length text) FINAL_ANSWER text)).
  cbn [mbind result_bind]. rewrite Hidx. reflexivity.
Qed.

Lemma parse_body_action (text : str) (gs : list str) :
  contains FINAL_ANSWER text = false ->
  search ACTION_RE text = Some gs ->
  exists pre tool input rest,
    action_pair_at text pre tool input rest
    /\ (forall pre' tool' input' rest',
          action_pair_at text pre' tool' input' rest' ->
          length pre <= length pre')
    /\ parse_body text = Ok (AgentAction (strip tool) (strip input) text).
Proof.
  intros Hc Hs. unfold parse_body. rewrite Hc, Hs.
  apply search_Some in Hs as (pre & s' & -> & Hm & Hmin).
  apply match_action_iff in Hm as (tool & input & rest & -> & Hpair).
  exists pre, tool, input, rest. split; [|split].
  - destruct Hpair as (-> & H). split; [reflexivity | exact H].
  - intros pre' tool' input' rest' (Ht & H').
    destruct (le_lt_dec (length pre) (length pre')) as [|Hlt]; [assumption|].
    exfalso. specialize (Hmin pre' _ Ht Hlt).
    assert (match_here ACTION_RE
              (lit "Action: " ++ tool' ++ LF :: lit "Action Input: " ++ input' ++ rest')
            = Some [tool'; input']) as X; [|congruence].
    apply match_action_iff. exists tool', input', rest'.
    split; [reflexivity|]. split; [reflexivity | exact H'].
  - reflexivity.
Qed.

Lemma search_action_None (text : str) :
  search ACTION_RE text = None
  <-> forall pre tool input rest, ~ action_pair_at text pre tool input rest.
Proof.
  rewrite search_None. split.
  - intros H pre tool input rest (Ht & H').
    specialize (H pre _ Ht).
    assert (match_here ACTION_RE
              (lit "Action: " ++ tool ++ LF :: lit "Action Input: " ++ input ++ rest)
            = Some [tool; input]) as X; [|congruence].
    apply match_action_iff. exists tool, input, rest.
    split; [reflexivity|]. split; [reflexivity | exact H'].
  - intros H pre s' ->.
    destruct (match_here ACTION_RE s') as [gs|] eqn:E; [|reflexivity].
    apply match_action_iff in E as (tool & input & rest & _ & -> & H').
    exfalso. apply (H pre tool input rest). split; [reflexivity | exact H'].
Qed.

(** The body of the [try] never raises: the handler is dead code. *)
Lemma parse_body_ok (text : str) : exists outcome, parse_body text = Ok outcome.
Proof.
  destruct (contains FINAL_ANSWER text) eqn:Hc.
  - destruct (parse_body_marker text Hc) as (pre & post & _ & ->). eauto.
  - destruct (search ACTION_RE text) as [gs|] eqn:Hs.
    + destruct (parse_body_action text gs Hc Hs) as (? & ? & ? & ? & _ & _ & ->).
      eauto.
    + unfold parse_body. rewrite Hc, Hs. eauto.
Qed.

(** C1.  A text that contains the marker [Final Answer:] is parsed to a
    Finish whose output is the text after the last occurrence of the
    marker, trimmed; whatever precedes that occurrence (action lines,
    earlier markers) is ignored. *)
Theorem parse_final_answer (text : str) :
  contains FINAL_ANSWER text = true ->
  exists pre post,
    last_occurrence FINAL_ANSWER text pre post
    /\ parse text = AgentFinish (strip post) text
    /\ trimmed_of post (strip post).
Proof.
  intros Hc. destruct (parse_body_marker text Hc) as (pre & post & Hlast & Hp).
  exists pre, post. split; [exact Hlast|]. split; [|apply strip_trimmed].
  unfold parse. rewrite Hp. reflexivity.
Qed.

(** C2.  [parse] is total: the body of its [try] returns an outcome for
    every text, and [parse] returns that outcome; a text with neither the
    marker nor an action pair is parsed to a Finish that wraps the text,
    trimmed. *)
Theorem parse_total (text : str) :
  (exists outcome, parse_body text = Ok outcome /\ parse text = outcome)
  /\ (contains FINAL_ANSWER text = false ->
      (forall pre tool input rest, ~ action_pair_at text pre tool input rest) ->
      parse text = AgentFinish (strip text) text).
Proof.
  split.
  - destruct (parse_body_ok text) as [outcome H]. exists outcome.
    split; [exact H|]. unfold parse. rewrite H. reflexivity.
  - intros Hc Hno. apply search_action_None in Hno.
    unfold parse, parse_body. rewrite Hc, Hno. reflexivity.
Qed.

(** C3.  A text without the marker that contains an action pair is parsed
    to an Action: the tool name and the input are the two captures of the
    leftmost pair, each running to the end of its line, each trimmed. *)
Theorem parse_action_pair (text : str) :
  contains FINAL_ANSWER text = false ->
  (exists pre tool input rest, action_pair_at text pre tool input rest) ->
  exists pre tool input rest,
    action_pair_at text pre tool input rest
    /\ (forall pre' tool' input' rest',
          action_pair_at text pre' tool' input' rest' ->
          length pre <= length pre')
    /\ parse text = AgentAction (strip tool) (strip input) text
    /\ trimmed_of tool (strip tool) /\ trimmed_of input (strip input).
Proof.
  intros Hc Hex.
  destruct (search ACTION_RE text) as [gs|] eqn:Hs.
  - destruct (parse_body_action text gs Hc Hs)
      as (pre & tool & input & rest & Hpair & Hmin & Hp).
    exists pre, tool, input, rest.
    split; [exact Hpair|]. split; [exact Hmin|].
    split; [|split; apply strip_trimmed].
    unfold parse. rewrite Hp. reflexivity.
  - exfalso. destruct Hex as (pre & tool & input & rest & H).
    eapply search_action_None; eauto.
Qed.

End ParserFacts.

(** ** The window of the conversation memory *)

Section MemoryFacts.

Import ConversationBufferWindowMemory.

Lemma entries_app (l1 l2 : list (str * str)) :
  entries (l1 ++ l2) = entries l1 ++ entries l2.
Proof. unfold entries. rewrite map_app, concat_app. reflexivity. Qed.

Lemma length_entries (l : list (str * str)) : length (entries l) = 2 * length l.
Proof.
  induction l as [|turn l IH]; [reflexivity|].
  change (entries (turn :: l)) with (exchange (fst turn) (snd turn) ++ entries l).
  rewrite length_app, IH. simpl. lia.
Qed.

Lemma skipn_entries (j : nat) (l : list (str * str)) :
  skipn (2 * j) (entries l) = entries (skipn j l).
Proof.
  revert l. induction j as [|j IH]; intros l; [reflexivity|].
  destruct l as [|turn l]; [reflexivity|].
  replace (2 * S j) with (S (S (2 * j))) by lia.
  change (entries (turn :: l))
    with (HumanMessage (fst turn) :: AIMessage (snd turn) :: entries l).
  cbn [skipn]. apply IH.
Qed.

Lemma keep_last_entries (n : nat) (l : list (str * str)) :
  keep_last (2 * n) (entries l) = entries (keep_last n l).
Proof.
  unfold keep_last. rewrite length_entries.
  replace (2 * length l - 2 * n) with (2 * (length l - n)) by lia.
  apply skipn_entries.
Qed.

Lemma keep_last_keep_last_app {A} (n : nat) (l1 l2 : list A) :
  keep_last n (keep_last n l1 ++ l2) = keep_last n (l1 ++ l2).
Proof.
  unfold keep_last. rewrite !length_app, length_skipn.
  destruct (le_lt_dec (length l1) n) as [Hle|Hgt].
  - replace (length l1 - n) with 0 by lia. simpl.
    f_equal. lia.
  - replace (length l1 + length l2 - n)
      with (length l2 + (length l1 - n)) by lia.
    rewrite <- skipn_skipn. f_equal; [lia|].
    rewrite skipn_app.
    replace (length l1 - n - length l1) with 0 by lia. reflexivity.
Qed.

End MemoryFacts.

(** ** The order store *)

Section OrderFacts.

Import MockOrderDatabase.

Lemma cancel_order_refused (orders : gmap str Order) (id : str) :
  orders !! id = None
  \/ (exists order, orders !! id = Some order /\ can_cancel order = false) ->
  fst (cancel_order orders id) = orders
  /\ success (snd (cancel_order orders id)) = false.
Proof.
  unfold cancel_order. intros [-> | (order & -> & ->)]; simpl; auto.
Qed.

(** C10.  [cancel_order] on an unknown id, or on an order whose
    [can_cancel] is false, fails and returns the store as it was; on an
    order whose [can_cancel] is true it succeeds, and in the store it
    returns that order (and no other) has status [cancelled] and
    [can_cancel] false, so that cancelling it again fails. *)
Theorem cancel_order_one_shot (orders : gmap str Order) (id : str) :
  (orders !! id = None
   \/ (exists order, orders !! id = Some order /\ can_cancel order = false) ->
   fst (cancel_order orders id) = orders
   /\ success (snd (cancel_order orders id)) = false)
  /\ (forall order,
        orders !! id = Some order -> can_cancel order = true ->
        let orders' := fst (cancel_order orders id) in
        success (snd (cancel_order orders id)) = true
        /\ orders' = <[id := cancelled order]> orders
        /\ (exists order', orders' !! id = Some order'
                           /\ status order' = lit "cancelled"
                           /\ can_cancel order' = false)
        /\ (forall other, other <> id -> orders' !! other = orders !! other)
        /\ fst (cancel_order orders' id) = orders'
        /\ success (snd (cancel_order orders' id)) = false).
Proof.
  split; [apply cancel_order_refused|].
  intros order Hget Hcan. cbv zeta.
  assert (cancel_order orders id
          = (<[id := cancelled order]> orders,
             {| success := true; message := lit "Order cancelled successfully" |}))
    as E.
  { unfold cancel_order. rewrite Hget, Hcan. reflexivity. }
  rewrite E. cbn [fst snd success].
  assert ((<[id := cancelled order]> orders) !! id = Some (cancelled order)) as Hnew
    by apply lookup_insert_eq.
  split; [reflexivity|]. split; [reflexivity|]. split; [|split].
  - exists (cancelled order). auto.
  - intros other Hne. apply lookup_insert_ne. congruence.
  - apply cancel_order_refused. right. exists (cancelled order). auto.
Qed.

End OrderFacts.

(** ** The tools *)

(** C7.  [update_preferences] is a tool of the registry, and its [_run]
    raises for every customer id and every dictionary of preferences: the
    call leaves the tool as an [AttributeError], not as a text. *)
Theorem update_preferences_raises (customer_id : str) (preferences : list (str * str)) :
  let error := lit "'MockCustomerDatabase' object has no attribute 'update_preferences'" in
  In (lit "update_preferences") Tools.get_tools
  /\ Tools.UpdatePreferencesTool_run customer_id preferences
     = Raise (AttributeError error).
Proof.
  cbv zeta. split; [simpl; tauto|]. reflexivity.
Qed.

(** ** Switching the model *)

Section SwitchFacts.

Import Agent.

Lemma try_model_probe (w : World) (client : ChatGroq) :
  try_model w client = (if probe_ok w client then Ok client else try_model w client)
  /\ (probe_ok w client = false -> raises (try_model w client) = true).
Proof.
  unfold try_model, probe_ok.
  destruct (ChatGroq_construct w client) as [[]|e],
           (ChatGroq_invoke w client (PlainPrompt (lit "Hello"))); cbn; auto.
Qed.

(** C9.  [switch_model] probes the client it builds for the requested
    model.  When the probe fails the agent is left as it was and the
    answer is [false]; when it succeeds the new client becomes the client
    of the agent and of its executor in one step, the memory is kept, and
    the answer is [true].  Either way, an agent whose client answered the
    trivial call still has one that does. *)
Theorem switch_model_probes (w : World) (self : EcommerceAgent) (model : str) :
  let new_llm := switch_llm w model in
  let self' := fst (switch_model w self model) in
  (probe_ok w new_llm = false ->
     switch_model w self model = (self, false))
  /\ (probe_ok w new_llm = true ->
        snd (switch_model w self model) = true
        /\ llm self' = new_llm
        /\ agent_llm (agent_executor self') = new_llm
        /\ memory self' = memory self
        /\ working w new_llm)
  /\ (working w (llm self) -> working w (llm self')).
Proof.
  cbv zeta. unfold switch_model.
  destruct (try_model_probe w (switch_llm w model)) as [Heq Hfail].
  destruct (probe_ok w (switch_llm w model)) eqn:Hp.
  - rewrite Heq. cbn.
    assert (working w (switch_llm w model)) as Hw.
    { unfold working. unfold probe_ok in Hp.
      apply andb_true_iff in Hp as [_ Hp]. apply negb_true_iff in Hp. exact Hp. }
    split; [discriminate|]. split; [auto 10|]. auto.
  - specialize (Hfail eq_refl).
    destruct (try_model w (switch_llm w model)); [discriminate|].
    split; [reflexivity|]. split; [discriminate|]. cbn. auto.
Qed.

End SwitchFacts.

(** ** A turn of the agent *)

Section TurnFacts.

Import ConversationBufferWindowMemory Agent.

Lemma sample_agent_init :
  snd (__init__ Sample.answering None) = Ok Sample.agent
  /\ snd (__init__ Sample.always_action None) = Ok Sample.agent.
Proof. split; reflexivity. Qed.

(** A turn whose run returns: the executor saves the exchange in the
    memory it was built with, and [process_message] saves it again. *)
Lemma process_message_returned (w : World) (self : EcommerceAgent)
    (message : str) (customer_context : option str) (response : Response) :
  executor_memory (agent_executor self) = Some self_memory ->
  Executor.run w (agent_llm (agent_executor self))
    (enhance message customer_context) (FromMemory (messages (memory self)))
    (max_iterations (agent_executor self)) [] = Ok response ->
  process_message w self message customer_context
  = (with_memory self
       (save_context
          (save_context (memory self) (enhance message customer_context)
             (output response))
          message (output response)),
     output response).
Proof.
  intros Hmem Hrun. unfold process_message, Executor.invoke.
  rewrite Hmem, Hrun. reflexivity.
Qed.

(** A turn whose run raises: nothing is saved by the executor, and
    [process_message] saves the exchange with the classified message. *)
Lemma process_message_raised (w : World) (self : EcommerceAgent)
    (message : str) (customer_context : option str) (e : exn) :
  snd (Executor.invoke w (agent_executor self) (memory self)
         (enhance message customer_context)
         (render_history (messages (memory self)))) = Raise e ->
  process_message w self message customer_context
  = (with_memory self (save_context (memory self) message (classify (exn_str e))),
     classify (exn_str e)).
Proof.
  unfold process_message, Executor.invoke.
  destruct (Executor.run _ _ _ _ _ _) as [response|e']; cbn [snd].
  - discriminate.
  - intros [= ->]. reflexivity.
Qed.

(** The turns of a conversation in which every run of the executor
    returns: the executor stays as it was, and the memory holds the last
    entries of what the turns saved, two exchanges each. *)
Lemma completed_turns_memory (w : World) (self : EcommerceAgent)
    (reply : str -> str) (turns : list (str * option str)) :
  executor_memory (agent_executor self) = Some self_memory ->
  messages (memory self) = [] ->
  (forall input history,
      exists response,
        Executor.run w (agent_llm (agent_executor self)) input history
          (max_iterations (agent_executor self)) [] = Ok response
        /\ output response = reply input) ->
  let now := serve_all w self (map (fun turn => Say (fst turn) (snd turn)) turns) in
  agent_executor now = agent_executor self
  /\ k (memory now) = k (memory self)
  /\ messages (memory now)
     = keep_last (2 * k (memory self))
         (flat_map (fun turn =>
                      [ HumanMessage (enhance (fst turn) (snd turn));
                        AIMessage (reply (enhance (fst turn) (snd turn)));
                        HumanMessage (fst turn);
                        AIMessage (reply (enhance (fst turn) (snd turn))) ])
                   turns).
Proof.
  intros Hmem Hempty Hrun. cbv zeta.
  induction turns as [|turn turns IH] using rev_ind.
  - cbn. rewrite Hempty. repeat split; reflexivity.
  - unfold serve_all in *. rewrite map_app, fold_left_app. cbn [map fold_left serve].
    set (now := fold_left (serve w) _ self) in *.
    destruct IH as (Hex & Hk & Hm).
    destruct (Hrun (enhance (fst turn) (snd turn))
                (FromMemory (messages (memory now)))) as (response & Hr & Hout).
    rewrite <- Hex in Hr.
    rewrite (process_message_returned w now (fst turn) (snd turn) response);
      [|rewrite Hex; exact Hmem|exact Hr].
    cbn [fst with_memory agent_executor memory save_context k messages].
    split; [exact Hex|]. split; [exact Hk|].
    rewrite Hk, Hm, Hout.
    rewrite keep_last_keep_last_app, <- app_assoc, keep_last_keep_last_app.
    rewrite flat_map_app. cbn [flat_map]. rewrite app_nil_r. reflexivity.
Qed.

(** C4.  The memory of the agent does not hold the [min n k] most recent
    exchanges of [n] completed turns.  The executor is attached to the
    memory, as [__init__] and [switch_model] build it, so every turn whose
    run returns saves two exchanges: the executor the input it was given and
    the reply, then [process_message] the message as typed and the reply.
    After [n] such turns from an empty memory of window [k], the memory
    holds the last [2 * k] entries of these, that is [min (2 * n) k]
    exchanges; for [0 < n < k] these are more than the [min n k] exchanges
    of the invariant, and as soon as [k < 2 * n] the oldest turns are gone
    although fewer than [k] turns were made. *)
Theorem completed_turns_fill_window_twice (w : World) (self : EcommerceAgent)
    (reply : str -> str) (turns : list (str * option str)) :
  executor_memory (agent_executor self) = Some self_memory ->
  messages (memory self) = [] ->
  (forall input history,
      exists response,
        Executor.run w (agent_llm (agent_executor self)) input history
          (max_iterations (agent_executor self)) [] = Ok response
        /\ output response = reply input) ->
  let window := k (memory self) in
  let now := serve_all w self (map (fun turn => Say (fst turn) (snd turn)) turns) in
  let saved :=
    flat_map (fun turn =>
                [ HumanMessage (enhance (fst turn) (snd turn));
                  AIMessage (reply (enhance (fst turn) (snd turn)));
                  HumanMessage (fst turn);
                  AIMessage (reply (enhance (fst turn) (snd turn))) ])
             turns in
  messages (memory now) = skipn (length saved - 2 * window) saved
  /\ length (messages (memory now)) = 2 * Nat.min (2 * length turns) window
  /\ (0 < length turns < window ->
      length (messages (memory now)) <> 2 * Nat.min (length turns) window).
Proof.
  intros Hmem Hempty Hrun. cbv zeta.
  destruct (completed_turns_memory w self reply turns Hmem Hempty Hrun)
    as (_ & _ & Hm).
  cbv zeta in Hm. rewrite Hm. unfold keep_last.
  split; [reflexivity|].
  rewrite length_skipn.
  match goal with
  | |- context [length (flat_map ?f turns)] =>
      assert (length (flat_map f turns) = 4 * length turns) as ->
  end.
  { clear. induction turns as [|turn turns IH]; [reflexivity|].
    cbn [flat_map app length]. rewrite IH. lia. }
  split; lia.
Qed.

(** C5.  One turn of the agent built by [__init__], with a session context
    and a backend that answers at once: the memory receives two exchanges,
    the first from the executor with the annotated input, the second from
    [process_message] with the input as typed. *)
Theorem process_message_saves_twice :
  let context := lit "{'customer_id': 'CUST001'}" in
  let turn := process_message Sample.answering Sample.agent (lit "hi") (Some context) in
  snd turn = lit "Hello!"
  /\ messages (memory (fst turn))
     = [ HumanMessage (lit "hi" ++ Py.LF :: lit "Customer Context: " ++ context);
         AIMessage (lit "Hello!");
         HumanMessage (lit "hi");
         AIMessage (lit "Hello!") ].
Proof. vm_compute. split; reflexivity. Qed.

(** The rounds of a run whose backend only ever asks for a registered tool
    that answers: every round adds a step, and the run ends at its ceiling. *)
Lemma run_always_action (w : World) (client : ChatGroq) (input : str)
    (history : ChatHistory) (text tool tool_input observation : str) :
  (forall scratchpad,
      ChatGroq_invoke w client (AgentPrompt input history scratchpad) = Ok text) ->
  SafeOutputParser.parse text = AgentAction tool tool_input text ->
  Executor.dispatch w tool tool_input = Ok observation ->
  forall iterations scratchpad,
  exists steps,
    Executor.run w client input history iterations scratchpad
    = Ok {| output := Executor.CEILING_MESSAGE;
            intermediate_steps := scratchpad ++ steps |}
    /\ length steps = iterations.
Proof.
  intros Hllm Hparse Htool iterations.
  induction iterations as [|n IH]; intros scratchpad.
  - exists []. rewrite app_nil_r. split; reflexivity.
  - cbn [Executor.run]. rewrite Hllm. cbn [mbind result_bind].
    rewrite Hparse, Htool. cbn [mbind result_bind].
    destruct (IH (scratchpad
                    ++ [ {| step_tool := tool; step_tool_input := tool_input;
                            step_observation := observation |} ]))
      as (steps & -> & Hlen).
    eexists (_ :: steps). rewrite <- app_assoc. split; [reflexivity|].
    simpl. lia.
Qed.

Lemma switch_model_ceiling (w : World) (self : EcommerceAgent) (model : str) :
  snd (switch_model w self model) = true ->
  max_iterations (agent_executor (fst (switch_model w self model))) = 10.
Proof.
  unfold switch_model. destruct (try_model w (switch_llm w model)); cbn.
  - reflexivity.
  - discriminate.
Qed.

(** C6.  With a backend that only ever emits actions, the agent built by
    [__init__] stops after 5 steps; after a successful [switch_model] the
    same agent stops after 10. *)
Theorem ceiling_after_switch_model :
  let w := Sample.always_action in
  let run_turn (self : EcommerceAgent) :=
    snd (Executor.invoke w (agent_executor self) (memory self) (lit "hi") []) in
  let switched := switch_model w Sample.agent (lit "gemma2-9b-it") in
  (exists steps,
      run_turn Sample.agent
      = Ok {| output := Executor.CEILING_MESSAGE; intermediate_steps := steps |}
      /\ length steps = 5)
  /\ snd switched = true
  /\ max_iterations (agent_executor (fst switched)) = 10
  /\ (exists steps,
        run_turn (fst switched)
        = Ok {| output := Executor.CEILING_MESSAGE; intermediate_steps := steps |}
        /\ length steps = 10).
Proof.
  cbv zeta. split; [|split; [|split]].
  - eexists. split; [vm_compute; reflexivity | reflexivity].
  - reflexivity.
  - reflexivity.
  - eexists. split; [vm_compute; reflexivity | reflexivity].
Qed.

(** C8, against the claim as worded.  An error that mentions a quota, or
    credentials, is answered with the generic apology that quotes it. *)
Lemma classify_quota_is_generic :
  let quota := lit "Quota exceeded" in
  let credentials := lit "Invalid credentials" in
  Py.contains (lit "quota") (Py.lower quota) = true
  /\ classify quota = APOLOGY ++ quota
  /\ classify quota <> HIGH_DEMAND
  /\ snd (process_message (Sample.failing quota) Sample.agent (lit "hi") None)
     = APOLOGY ++ quota
  /\ Py.contains (lit "credential") (Py.lower credentials) = true
  /\ classify credentials = APOLOGY ++ credentials
  /\ classify credentials <> AUTH_ISSUE.
Proof.
  cbv zeta. repeat split; try (vm_compute; reflexivity); vm_compute; discriminate.
Qed.

(** C8, as the code has it.  The text of the error is put in lower case
    and searched, first match first: [rate limit] gives the high-demand
    message; else [authentication] or [api key] gives the contact-support
    message; else [timeout] gives the shorter-message message; else the
    answer is the generic apology followed by the text of the error.  When
    the run of a turn raises, that message is saved in the memory as the
    assistant's turn, after the input as typed, and returned. *)
Theorem error_classified (w : World) (self : EcommerceAgent)
    (message : str) (customer_context : option str) (e : exn) :
  snd (Executor.invoke w (agent_executor self) (memory self)
         (enhance message customer_context)
         (render_history (messages (memory self)))) = Raise e ->
  let text := Py.lower (exn_str e) in
  let reply := classify (exn_str e) in
  process_message w self message customer_context
  = (with_memory self (save_context (memory self) message reply), reply)
  /\ (Py.contains (lit "rate limit") text = true -> reply = HIGH_DEMAND)
  /\ (Py.contains (lit "rate limit") text = false ->
      Py.contains (lit "authentication") text = true
      \/ Py.contains (lit "api key") text = true ->
      reply = AUTH_ISSUE)
  /\ (Py.contains (lit "rate limit") text = false ->
      Py.contains (lit "authentication") text = false ->
      Py.contains (lit "api key") text = false ->
      Py.contains (lit "timeout") text = true ->
      reply = TIMED_OUT)
  /\ (Py.contains (lit "rate limit") text = false ->
      Py.contains (lit "authentication") text = false ->
      Py.contains (lit "api key") text = false ->
      Py.contains (lit "timeout") text = false ->
      reply = APOLOGY ++ exn_str e).
Proof.
  intros Hraise. cbv zeta. split; [apply process_message_raised, Hraise|].
  unfold classify. repeat split.
  - intros ->. reflexivity.
  - intros -> [-> | ->]; [reflexivity|]. rewrite orb_true_r. reflexivity.
  - intros -> -> -> ->. reflexivity.
  - intros -> -> -> ->. reflexivity.
Qed.

End TurnFacts.

(** ** The properties at concrete inputs *)

Section Instances.

Import Py SafeOutputParser ConversationBufferWindowMemory Agent.

Example parse_scenario_A :
  parse (lit "Final Answer: Hello!")
  = AgentFinish (lit "Hello!") (lit "Final Answer: Hello!").
Proof. vm_compute. reflexivity. Qed.

Example parse_scenario_B :
  let text := lit "Action: order_status" ++ LF :: lit "Action Input: ORD001" in
  parse text = AgentAction (lit "order_status") (lit "ORD001") text.
Proof. vm_compute. reflexivity. Qed.

Example parse_last_marker :
  parse Sample.reasoning_then_answer
  = AgentFinish (lit "Your order has shipped.") Sample.reasoning_then_answer.
Proof. vm_compute. reflexivity. Qed.

Lemma parse_final_answer_witness :
  contains FINAL_ANSWER Sample.reasoning_then_answer = true
  /\ exists pre post,
       last_occurrence FINAL_ANSWER Sample.reasoning_then_answer pre post
       /\ parse Sample.reasoning_then_answer = AgentFinish (strip post) Sample.reasoning_then_answer
       /\ trimmed_of post (strip post).
Proof.
  split; [reflexivity|].
  apply (parse_final_answer Sample.reasoning_then_answer). reflexivity.
Defined.

Lemma parse_total_witness :
  contains FINAL_ANSWER Sample.plain_reply = false
  /\ (forall pre tool input rest, ~ action_pair_at Sample.plain_reply pre tool input rest)
  /\ parse Sample.plain_reply = AgentFinish (strip Sample.plain_reply) Sample.plain_reply.
Proof.
  assert (forall pre tool input rest,
             ~ action_pair_at Sample.plain_reply pre tool input rest) as Hno.
  { apply search_action_None. reflexivity. }
  split; [reflexivity|]. split; [exact Hno|].
  apply (proj2 (parse_total Sample.plain_reply)); [reflexivity | exact Hno].
Defined.

Lemma spaced_action_pair :
  action_pair_at Sample.spaced_action
    (lit "Thought: look it up" ++ [LF])
    (lit " order_status ") (lit "ORD001  ")
    (LF :: lit "Observation: pending").
Proof.
  split; [reflexivity|]. split; [|split].
  - simpl. intros H. repeat destruct H as [H|H]; try discriminate H; exact H.
  - simpl. intros H. repeat destruct H as [H|H]; try discriminate H; exact H.
  - right. eexists. reflexivity.
Defined.

Lemma parse_action_pair_witness :
  contains FINAL_ANSWER Sample.spaced_action = false
  /\ exists pre tool input rest,
       action_pair_at Sample.spaced_action pre tool input rest
       /\ (forall pre' tool' input' rest',
             action_pair_at Sample.spaced_action pre' tool' input' rest' ->
             length pre <= length pre')
       /\ parse Sample.spaced_action = AgentAction (strip tool) (strip input) Sample.spaced_action
       /\ trimmed_of tool (strip tool) /\ trimmed_of input (strip input).
Proof.
  split; [reflexivity|].
  apply (parse_action_pair Sample.spaced_action); [reflexivity|].
  eexists _, _, _, _. exact spaced_action_pair.
Defined.

Example parse_spaced_action :
  parse Sample.spaced_action
  = AgentAction (lit "order_status") (lit "ORD001") Sample.spaced_action.
Proof. vm_compute. reflexivity. Qed.

Lemma completed_turns_fill_window_twice_witness :
  let say := map (fun turn => Say (fst turn) (snd turn)) in
  let context := lit "{'customer_id': 'CUST001'}" in
  let annotated message := message ++ Py.LF :: lit "Customer Context: " ++ context in
  messages (memory (serve_all Sample.answering Sample.agent (say (firstn 1 Sample.six_turns))))
  = [ HumanMessage (annotated (lit "q1")); AIMessage (lit "Hello!");
      HumanMessage (lit "q1"); AIMessage (lit "Hello!") ]
  /\ length (messages (memory (serve_all Sample.answering Sample.agent
                                 (say Sample.six_turns)))) = 20
  /\ hd_error (messages (memory (serve_all Sample.answering Sample.agent
                                   (say Sample.six_turns))))
     = Some (HumanMessage (annotated (lit "q2"))).
Proof.
  assert (forall input history,
             exists response,
               Executor.run Sample.answering (agent_llm (agent_executor Sample.agent))
                 input history (max_iterations (agent_executor Sample.agent)) []
               = Ok response
               /\ output response = (fun _ => lit "Hello!") input) as Hrun.
  { intros input history.
    exists {| output := lit "Hello!"; intermediate_steps := [] |}.
    split; reflexivity. }
  cbv zeta. split; [|split].
  - destruct (completed_turns_fill_window_twice Sample.answering Sample.agent
                (fun _ => lit "Hello!") (firstn 1 Sample.six_turns)
                eq_refl eq_refl Hrun) as (Hm & _ & _).
    rewrite Hm. reflexivity.
  - destruct (completed_turns_fill_window_twice Sample.answering Sample.agent
                (fun _ => lit "Hello!") Sample.six_turns
                eq_refl eq_refl Hrun) as (_ & Hlen & _).
    exact Hlen.
  - destruct (completed_turns_fill_window_twice Sample.answering Sample.agent
                (fun _ => lit "Hello!") Sample.six_turns
                eq_refl eq_refl Hrun) as (Hm & _ & _).
    rewrite Hm. reflexivity.
Defined.

Lemma cancel_order_one_shot_witness :
  let orders := MockOrderDatabase.init in
  let orders' := fst (MockOrderDatabase.cancel_order orders (lit "ORD002")) in
  MockOrderDatabase.cancel_order orders (lit "ORD999")
  = (orders, {| MockOrderDatabase.success := false;
                MockOrderDatabase.message := lit "Order not found" |})
  /\ fst (MockOrderDatabase.cancel_order orders (lit "ORD001")) = orders
  /\ MockOrderDatabase.success (snd (MockOrderDatabase.cancel_order orders (lit "ORD001"))) = false
  /\ MockOrderDatabase.success (snd (MockOrderDatabase.cancel_order orders (lit "ORD002"))) = true
  /\ MockOrderDatabase.success (snd (MockOrderDatabase.cancel_order orders' (lit "ORD002"))) = false.
Proof.
  cbv zeta. split; [reflexivity|].
  destruct (cancel_order_one_shot MockOrderDatabase.init (lit "ORD001")) as [Hno _].
  destruct Hno as [Hsame Hfail].
  { right. eexists. split; [vm_compute; reflexivity | reflexivity]. }
  destruct (cancel_order_one_shot MockOrderDatabase.init (lit "ORD002")) as [_ Hyes].
  edestruct Hyes as (Hok & _ & _ & _ & _ & Hagain);
    [vm_compute; reflexivity | reflexivity |].
  auto.
Defined.

Lemma switch_model_probes_witness :
  switch_model (Sample.failing (lit "model not found")) Sample.agent (lit "no-such-model")
  = (Sample.agent, false)
  /\ snd (switch_model Sample.always_action Sample.agent (lit "gemma2-9b-it")) = true
  /\ model_name (llm (fst (switch_model Sample.always_action Sample.agent
                             (lit "gemma2-9b-it")))) = lit "gemma2-9b-it".
Proof.
  split; [|split].
  - apply (switch_model_probes (Sample.failing (lit "model not found"))
             Sample.agent (lit "no-such-model")). reflexivity.
  - apply (switch_model_probes Sample.always_action Sample.agent (lit "gemma2-9b-it")).
    reflexivity.
  - destruct (switch_model_probes Sample.always_action Sample.agent (lit "gemma2-9b-it"))
      as (_ & Hok & _).
    destruct (Hok eq_refl) as (_ & -> & _). reflexivity.
Defined.

(** Scenario E: an error of the backend that contains [rate limit]. *)
Lemma error_classified_witness :
  let w := Sample.failing (lit "Error code: 429 - Rate limit reached for model") in
  process_message w Sample.agent (lit "hi") None
  = (with_memory Sample.agent
       (save_context (memory Sample.agent) (lit "hi") HIGH_DEMAND),
     HIGH_DEMAND).
Proof.
  cbv zeta.
  destruct (error_classified
              (Sample.failing (lit "Error code: 429 - Rate limit reached for model"))
              Sample.agent (lit "hi") None
              (BackendError (lit "Error code: 429 - Rate limit reached for model"))
              eq_refl) as (Hturn & Hrate & _).
  rewrite Hturn, Hrate; reflexivity.
Defined.

End Instances.

(** * Further properties of the code *)

(** ** The parser *)

Section ParserMore.

Import Py Re SafeOutputParser.

Lemma trimmed_of_In (s t : str) (c : ascii) : trimmed_of s t -> In c t -> In c s.
Proof.
  intros (ws1 & ws2 & -> & _) H. apply in_or_app. right.
  apply in_or_app. left. exact H.
Qed.

(** X1.  [parse] keeps the text it was given as the log of the outcome, and
    every field it extracts is trimmed.  An Action is only ever returned for
    a text without the marker, and its tool name and input hold no line
    feed. *)
Theorem parse_fields_clean (text : str) :
  match parse text with
  | AgentFinish out log => log = text /\ trimmed out
  | AgentAction tool tool_input log =>
      log = text /\ trimmed tool /\ trimmed tool_input
      /\ ~ In LF tool /\ ~ In LF tool_input
      /\ contains FINAL_ANSWER text = false
  end.
Proof.
  assert (forall s, trimmed (strip s)) as Htrim.
  { intros s. destruct (strip_trimmed s) as (? & ? & _ & _ & _ & H). exact H. }
  destruct (contains FINAL_ANSWER text) eqn:Hc.
  - destruct (parse_body_marker text Hc) as (pre & post & _ & Hp).
    unfold parse. rewrite Hp. auto.
  - destruct (search ACTION_RE text) as [gs|] eqn:Hs.
    + destruct (parse_body_action text gs Hc Hs)
        as (pre & tool & input & rest & (_ & Htool & Hinput & _) & _ & Hp).
      unfold parse. rewrite Hp.
      split; [reflexivity|]. split; [apply Htrim|]. split; [apply Htrim|].
      split; [|split; [|reflexivity]].
      * intros H. apply Htool. eapply trimmed_of_In; [apply strip_trimmed | exact H].
      * intros H. apply Hinput. eapply trimmed_of_In; [apply strip_trimmed | exact H].
    + unfold parse, parse_body. rewrite Hc, Hs. auto.
Qed.

End ParserMore.

(** ** A turn, whatever the backend does *)

Section TurnMore.

Import ConversationBufferWindowMemory Agent.

Lemma save_context_last (m : t) (input output : str) :
  0 < k m ->
  k (save_context m input output) = k m
  /\ exists earlier,
       messages (save_context m input output)
       = earlier ++ [HumanMessage input; AIMessage output].
Proof.
  intros Hk. split; [reflexivity|].
  unfold save_context, keep_last. cbn [messages].
  rewrite length_app. cbn [exchange length].
  exists (skipn (length (messages m) + 2 - 2 * k m) (messages m)).
  rewrite skipn_app.
  replace (length (messages m) + 2 - 2 * k m - length (messages m)) with 0 by lia.
  reflexivity.
Qed.

Lemma invoke_keeps_k (w : World) (executor : AgentExecutor) (m : t)
    (input chat_history : str) :
  k (fst (Executor.invoke w executor m input chat_history)) = k m.
Proof.
  unfold Executor.invoke.
  destruct (Executor.run _ _ _ _ _ _); [|reflexivity].
  destruct (executor_memory executor) as [[]|]; reflexivity.
Qed.

Lemma process_message_shape (w : World) (self : EcommerceAgent)
    (message : str) (customer_context : option str) :
  exists m1 reply,
    k m1 = k (memory self)
    /\ process_message w self message customer_context
       = (with_memory self (save_context m1 message reply), reply).
Proof.
  unfold process_message.
  pose proof (invoke_keeps_k w (agent_executor self) (memory self)
                (enhance message customer_context)
                (render_history (messages (memory self)))) as Hk.
  destruct (Executor.invoke _ _ _ _ _) as [m1 [response|e]]; cbn [fst snd] in *;
    eauto.
Qed.

(** X2.  Whatever the backend and the tools do, a call of [process_message] on
    an agent whose window is not zero ends with the memory holding, as its
    last two entries, the message as typed and the reply that is returned;
    the client, the executor and the window are left as they were. *)
Theorem process_message_remembers_reply (w : World) (self : EcommerceAgent)
    (message : str) (customer_context : option str) :
  0 < k (memory self) ->
  let turn := process_message w self message customer_context in
  (exists earlier,
      messages (memory (fst turn))
      = earlier ++ [HumanMessage message; AIMessage (snd turn)])
  /\ llm (fst turn) = llm self
  /\ agent_executor (fst turn) = agent_executor self
  /\ k (memory (fst turn)) = k (memory self).
Proof.
  intros Hk. cbv zeta.
  destruct (process_message_shape w self message customer_context)
    as (m1 & reply & Hk1 & ->).
  cbn [fst snd with_memory memory llm agent_executor].
  destruct (save_context_last m1 message reply) as [Hk2 Hlast]; [lia|].
  split; [exact Hlast|]. repeat split. congruence.
Qed.

End TurnMore.

(** ** Setting an agent up *)

Section InitMore.

Import ConversationBufferWindowMemory Agent.

Lemma init_world (w : World) (groq_api_key : option str) :
  getenv_GROQ_API_KEY (fst (__init__ w groq_api_key)) = effective_key w groq_api_key
  /\ ChatGroq_construct (fst (__init__ w groq_api_key)) = ChatGroq_construct w
  /\ ChatGroq_invoke (fst (__init__ w groq_api_key)) = ChatGroq_invoke w.
Proof.
  unfold __init__, effective_key. destruct groq_api_key as [[|c key]|]; auto.
Qed.

Lemma init_result (w : World) (groq_api_key : option str) :
  snd (__init__ w groq_api_key)
  = match _initialize_llm (fst (__init__ w groq_api_key)) with
    | Ok client => Ok {| llm := client; memory := new 10;
                         agent_executor := new_executor client |}
    | Raise e => Raise e
    end.
Proof. unfold __init__. cbn [fst snd]. reflexivity. Qed.

Lemma truthy_Some (s : option str) (key : str) :
  Py.truthy s = Some key -> s = Some key /\ key <> [].
Proof. destruct s as [[|c r]|]; cbn; intros [= <-]; split; congruence. Qed.

(** X3.  [__init__] works with the key it is given, else with the one of the
    environment, and leaves that key in the environment.  When there is a
    key and the primary client can be constructed, the agent gets the
    primary client, a window of 10 and a ceiling of 5, without any call to
    the service: the primary client is not probed. *)
Theorem init_takes_primary_unprobed (w : World) (groq_api_key : option str)
    (key : str) :
  Py.truthy (effective_key w groq_api_key) = Some key ->
  ChatGroq_construct w (primary_llm (Some key)) = Ok tt ->
  getenv_GROQ_API_KEY (fst (__init__ w groq_api_key)) = Some key
  /\ snd (__init__ w groq_api_key)
     = Ok {| llm := primary_llm (Some key);
             memory := new 10;
             agent_executor := new_executor (primary_llm (Some key)) |}.
Proof.
  intros Hkey Hconstruct.
  destruct (init_world w groq_api_key) as (Henv & Hc & _).
  apply truthy_Some in Hkey as [Hkey Hne]. rewrite Hkey in Henv.
  split; [exact Henv|].
  rewrite init_result. unfold _initialize_llm. rewrite Henv, Hc.
  destruct key as [|c key]; [congruence|].
  rewrite Hconstruct. reflexivity.
Qed.

Lemma try_model_cases (w : World) (client : ChatGroq) :
  (probe_ok w client = true /\ try_model w client = Ok client)
  \/ (probe_ok w client = false /\ exists e, try_model w client = Raise e).
Proof.
  unfold try_model, probe_ok.
  destruct (ChatGroq_construct w client) as [[]|e],
           (ChatGroq_invoke w client (PlainPrompt (lit "Hello"))); cbn; eauto.
Qed.

Lemma first_working_Ok (w : World) (key : option str) (models : list str)
    (client : ChatGroq) :
  first_working w key models = Ok client ->
  exists before model after,
    models = before ++ model :: after
    /\ Forall (fun m => probe_ok w (fallback_llm key m) = false) before
    /\ probe_ok w (fallback_llm key model) = true
    /\ client = fallback_llm key model.
Proof.
  induction models as [|m models IH]; cbn [first_working]; [discriminate|].
  destruct (try_model_cases w (fallback_llm key m)) as [[Hp ->] | [Hp [e ->]]].
  - intros [= <-]. exists [], m, models. auto.
  - intros H. destruct (IH H) as (before & model & after & -> & Hb & Hm & ->).
    exists (m :: before), model, after. auto.
Qed.

Lemma first_working_raises (w : World) (key : option str) (models : list str) :
  raises (first_working w key models) = true
  <-> Forall (fun m => probe_ok w (fallback_llm key m) = false) models.
Proof.
  induction models as [|m models IH]; cbn [first_working].
  - split; [constructor | reflexivity].
  - destruct (try_model_cases w (fallback_llm key m)) as [[Hp ->] | [Hp [e ->]]].
    + split; [discriminate|]. intros H. inversion H; subst. congruence.
    + rewrite IH. split; [constructor; assumption | intros H; inversion H; assumption].
Qed.

Lemma first_working_same_service (w w' : World) (key : option str)
    (models : list str) :
  ChatGroq_construct w' = ChatGroq_construct w ->
  ChatGroq_invoke w' = ChatGroq_invoke w ->
  first_working w' key models = first_working w key models.
Proof.
  intros Hc Hi. induction models as [|m models IH]; cbn [first_working]; [reflexivity|].
  unfold try_model. rewrite Hc, Hi, IH. reflexivity.
Qed.

(** X4.  When [__init__] cannot use the primary client (no key, or its
    construction raises), it tries [llama3-8b-8192], [mixtral-8x7b-32768]
    and [gemma2-9b-it] in that order and takes the first one that can be
    constructed and answers the probe; it raises exactly when all three
    fail. *)
Theorem init_falls_back_in_order (w : World) (groq_api_key : option str) :
  let key := effective_key w groq_api_key in
  Py.truthy key = None
  \/ (exists k, Py.truthy key = Some k
                /\ raises (ChatGroq_construct w (primary_llm (Some k))) = true) ->
  (forall self,
      snd (__init__ w groq_api_key) = Ok self ->
      exists before model after,
        fallback_models = before ++ model :: after
        /\ Forall (fun m => probe_ok w (fallback_llm key m) = false) before
        /\ probe_ok w (fallback_llm key model) = true
        /\ self = {| llm := fallback_llm key model;
                     memory := new 10;
                     agent_executor := new_executor (fallback_llm key model) |})
  /\ (raises (snd (__init__ w groq_api_key)) = true
      <-> Forall (fun m => probe_ok w (fallback_llm key m) = false) fallback_models).
Proof.
  cbv zeta. intros Hprimary.
  destruct (init_world w groq_api_key) as (Henv & Hc & Hi).
  set (w' := fst (__init__ w groq_api_key)) in *.
  assert (_initialize_llm w'
          = first_working w (effective_key w groq_api_key) fallback_models) as Hinit.
  { unfold _initialize_llm, _initialize_fallback_llm.
    rewrite (first_working_same_service w w') by assumption.
    rewrite Henv, Hc.
    destruct Hprimary as [Hnone | (k & Hk & Hr)].
    - destruct (effective_key w groq_api_key) as [[|c r]|]; cbn in Hnone;
        try discriminate; reflexivity.
    - apply truthy_Some in Hk as [-> Hne].
      destruct k as [|c k]; [congruence|].
      destruct (ChatGroq_construct w (primary_llm (Some (c :: k)))) as [[]|e];
        [discriminate | reflexivity]. }
  rewrite init_result. fold w'. rewrite Hinit. split.
  - intros self Hself.
    destruct (first_working w (effective_key w groq_api_key) fallback_models)
      as [client|e] eqn:Hfw; [|discriminate].
    injection Hself as <-.
    destruct (first_working_Ok _ _ _ _ Hfw) as (before & model & after & Hm & Hb & Hp & ->).
    exists before, model, after. auto.
  - rewrite <- first_working_raises.
    destruct (first_working w (effective_key w groq_api_key) fallback_models);
      reflexivity.
Qed.

End InitMore.

(** ** The life of an agent *)

Section LifeMore.

Import ConversationBufferWindowMemory Agent.

Lemma serve_all_snoc (w : World) (self : EcommerceAgent) (requests : list Request)
    (request : Request) :
  serve_all w self (requests ++ [request]) = serve w (serve_all w self requests) request.
Proof. unfold serve_all. rewrite fold_left_app. reflexivity. Qed.

Lemma init_cases (w : World) (groq_api_key : option str) (self : EcommerceAgent) :
  snd (__init__ w groq_api_key) = Ok self ->
  self = {| llm := llm self; memory := new 10;
            agent_executor := new_executor (llm self) |}.
Proof.
  rewrite init_result.
  destruct (_initialize_llm _); [|discriminate]. intros [= <-]. reflexivity.
Qed.

Lemma switch_model_cases (w : World) (self : EcommerceAgent) (model : str) :
  (probe_ok w (switch_llm w model) = true
   /\ switch_model w self model
      = ({| llm := switch_llm w model;
            memory := memory self;
            agent_executor :=
              {| agent_llm := switch_llm w model;
                 executor_memory := Some self_memory;
                 verbose := true;
                 handle_parsing_errors := true;
                 max_iterations := 10;
                 return_intermediate_steps := true;
                 output_parser := None |} |}, true))
  \/ (probe_ok w (switch_llm w model) = false
      /\ switch_model w self model = (self, false)).
Proof.
  unfold switch_model.
  destruct (try_model_cases w (switch_llm w model)) as [[Hp ->] | [Hp [e ->]]]; auto.
Qed.

Lemma well_formed_serve (w : World) (self : EcommerceAgent) (request : Request) :
  well_formed self -> well_formed (serve w self request).
Proof.
  intros (Hllm & Hmem & Hk & Hmax). destruct request as [message context| |model];
    cbn [serve].
  - destruct (process_message_shape w self message context)
      as (m1 & reply & Hk1 & ->).
    repeat split; auto. cbn. congruence.
  - repeat split; auto.
  - destruct (switch_model_cases w self model) as [[_ ->] | [_ ->]];
      repeat split; auto.
Qed.

Lemma well_formed_serve_all (w : World) (self : EcommerceAgent)
    (requests : list Request) :
  well_formed self -> well_formed (serve_all w self requests).
Proof.
  intros H. induction requests as [|request requests IH] using rev_ind; [exact H|].
  rewrite serve_all_snoc. apply well_formed_serve, IH.
Qed.

Lemma well_formed_init (w : World) (groq_api_key : option str)
    (self : EcommerceAgent) :
  snd (__init__ w groq_api_key) = Ok self -> well_formed self.
Proof.
  intros Hinit. rewrite (init_cases _ _ _ Hinit). repeat split; auto.
Qed.

(** X5.  An agent that [__init__] has built keeps, through every sequence of
    messages, resets and switches of model, an executor that runs the
    agent's current client and shares its memory, a window of 10, and a
    ceiling of 5 or 10. *)
Theorem agent_stays_well_formed (w0 w : World) (groq_api_key : option str)
    (self : EcommerceAgent) (requests : list Request) :
  snd (__init__ w0 groq_api_key) = Ok self ->
  well_formed (serve_all w self requests).
Proof.
  intros Hinit. eapply well_formed_serve_all, well_formed_init, Hinit.
Qed.

Lemma whole_exchanges_save (m : t) (input output : str) :
  whole_exchanges m -> whole_exchanges (save_context m input output).
Proof.
  intros (turns & Hm).
  exists (keep_last (k m) (turns ++ [(input, output)])).
  unfold save_context. cbn [messages]. rewrite Hm.
  change (exchange input output) with (entries [(input, output)]).
  rewrite <- entries_app. apply keep_last_entries.
Qed.

Lemma whole_exchanges_invoke (w : World) (executor : AgentExecutor) (m : t)
    (input chat_history : str) :
  whole_exchanges m ->
  whole_exchanges (fst (Executor.invoke w executor m input chat_history)).
Proof.
  intros H. unfold Executor.invoke.
  destruct (Executor.run _ _ _ _ _ _); [|exact H].
  destruct (executor_memory executor) as [[]|]; cbn [fst];
    [apply whole_exchanges_save|]; exact H.
Qed.

Lemma whole_exchanges_serve (w : World) (self : EcommerceAgent) (request : Request) :
  whole_exchanges (memory self) -> whole_exchanges (memory (serve w self request)).
Proof.
  intros H. destruct request as [message context| |model]; cbn [serve].
  - unfold process_message.
    pose proof (whole_exchanges_invoke w (agent_executor self) (memory self)
                  (enhance message context)
                  (render_history (messages (memory self))) H) as H1.
    destruct (Executor.invoke _ _ _ _ _) as [m1 [response|e]]; cbn [fst snd] in *;
      apply whole_exchanges_save, H1.
  - exists []. reflexivity.
  - destruct (switch_model_cases w self model) as [[_ ->] | [_ ->]]; exact H.
Qed.

(** X6.  Through every sequence of messages, resets and switches, the history
    that [get_conversation_history] returns is made of whole exchanges, a
    user entry followed by an assistant entry; right after a reset it is
    empty. *)
Theorem history_is_whole_exchanges (w0 w : World) (groq_api_key : option str)
    (self : EcommerceAgent) (requests : list Request) :
  snd (__init__ w0 groq_api_key) = Ok self ->
  let now := serve_all w self requests in
  (exists turns,
      get_conversation_history now
      = concat (map (fun turn => [user_says (fst turn); assistant_says (snd turn)]) turns))
  /\ get_conversation_history (reset_conversation now) = [].
Proof.
  intros Hinit. cbv zeta. split; [|reflexivity].
  assert (whole_exchanges (memory (serve_all w self requests))) as (turns & Hm).
  { induction requests as [|request requests IH] using rev_ind.
    - rewrite (init_cases _ _ _ Hinit). exists []. reflexivity.
    - rewrite serve_all_snoc. apply whole_exchanges_serve, IH. }
  exists turns. unfold get_conversation_history. rewrite Hm.
  clear. induction turns as [|turn turns IH]; [reflexivity|].
  change (entries (turn :: turns))
    with (HumanMessage (fst turn) :: AIMessage (snd turn) :: entries turns).
  cbn [map concat app]. rewrite IH. reflexivity.
Qed.

End LifeMore.

Section SwitchMore.

Import Agent.

Lemma last_passing_snoc (w : World) (models : list str) (model : str) :
  last_passing w (models ++ [model])
  = if probe_ok w (switch_llm w model) then Some model else last_passing w models.
Proof. unfold last_passing. rewrite rev_app_distr. reflexivity. Qed.

(** X7.  After any sequence of switches, the client of the agent is the one
    built for the last requested model whose probe succeeded (the client it
    had, if none did); the conversation memory is the one it had. *)
Theorem switch_model_last_success_wins (w : World) (self : EcommerceAgent)
    (models : list str) :
  let now := serve_all w self (map SwitchTo models) in
  llm now = match last_passing w models with
            | Some model => switch_llm w model
            | None => llm self
            end
  /\ memory now = memory self
  /\ (last_passing w models = None -> now = self).
Proof.
  cbv zeta. induction models as [|model models (Hllm & Hmem & Hnone)] using rev_ind.
  - repeat split.
  - rewrite map_app. cbn [map]. rewrite serve_all_snoc, last_passing_snoc.
    cbn [serve].
    destruct (switch_model_cases w (serve_all w self (map SwitchTo models)) model)
      as [[-> ->] | [-> ->]]; cbn [fst llm memory]; auto.
    repeat split; auto. discriminate.
Qed.

End SwitchMore.

(** ** The session contexts *)

Section ContextMore.

Import CustomerContext.

Lemma get_update_context (sessions : gmap str (gmap str str)) (session_id : str)
    (context : gmap str str) :
  get_context (update_context sessions session_id context) session_id
  = context ∪ get_context sessions session_id.
Proof. unfold get_context, update_context. rewrite lookup_insert_eq. reflexivity. Qed.

(** X8.  [update_context] writes the keys it is given over the context of the
    session, which it creates when missing: those keys read back as given,
    the other keys of the session and every other session read as before.
    A session never written to reads as the empty context. *)
Theorem update_context_reads_back (sessions : gmap str (gmap str str))
    (session_id : str) (context : gmap str str) :
  let sessions' := update_context sessions session_id context in
  (forall key value,
      context !! key = Some value ->
      get_context sessions' session_id !! key = Some value)
  /\ (forall key,
        context !! key = None ->
        get_context sessions' session_id !! key = get_context sessions session_id !! key)
  /\ (forall other,
        other <> session_id -> get_context sessions' other = get_context sessions other)
  /\ (sessions !! session_id = None -> get_context sessions session_id = ∅).
Proof.
  cbv zeta. rewrite get_update_context. repeat split.
  - intros key value H. apply lookup_union_Some_l. exact H.
  - intros key H. apply lookup_union_r. exact H.
  - intros other Hne. unfold get_context, update_context.
    rewrite lookup_insert_ne by congruence. reflexivity.
  - intros H. unfold get_context. rewrite H. reflexivity.
Qed.

Lemma update_update_context (sessions : gmap str (gmap str str)) (session_id : str)
    (c1 c2 : gmap str str) :
  update_context (update_context sessions session_id c1) session_id c2
  = update_context sessions session_id (c2 ∪ c1).
Proof.
  unfold update_context. rewrite lookup_insert_eq, insert_insert_eq.
  cbn [default from_option]. unfold id. rewrite (assoc_L (∪)). reflexivity.
Qed.

(** X9.  Logging in with a customer id and with an email, in either order, gives
    the same sessions, and the context of the session then holds both; a
    second login with an id replaces the first id. *)
Theorem logins_merge (sessions : gmap str (gmap str str))
    (session_id customer_id email : str) :
  let by_id_then_email :=
    set_customer_email (set_customer_id sessions session_id customer_id)
      session_id email in
  by_id_then_email
  = set_customer_id (set_customer_email sessions session_id email)
      session_id customer_id
  /\ get_context by_id_then_email session_id !! lit "customer_id" = Some customer_id
  /\ get_context by_id_then_email session_id !! lit "customer_email" = Some email
  /\ (forall newer,
        get_context (set_customer_id by_id_then_email session_id newer) session_id
          !! lit "customer_id" = Some newer).
Proof.
  cbv zeta. unfold set_customer_email, set_customer_id.
  assert (lit "customer_id" <> lit "customer_email") as Hne by (vm_compute; discriminate).
  rewrite !update_update_context. repeat split.
  - rewrite get_update_context. rewrite lookup_union_Some_raw. left.
    rewrite lookup_union_Some_raw. right.
    rewrite lookup_singleton_ne, lookup_singleton_eq by congruence. auto.
  - rewrite get_update_context. rewrite lookup_union_Some_raw. left.
    rewrite lookup_union_Some_raw. left. apply lookup_singleton_eq.
  - intros newer. rewrite get_update_context.
    apply lookup_union_Some_l, lookup_singleton_eq.
Qed.

End ContextMore.

(** ** Returns and cancellations *)

Section OrderMore.

Import MockOrderDatabase.

Lemma four_digits_check :
  forallb (fun draw => length (Py.str_of_N (N.of_nat draw)) =? 4)
          (seq 1000 (9 * 1000)) = true.
Proof. vm_compute. reflexivity. Qed.

(** X10.  [process_return] succeeds exactly for a stored order whose status is
    [delivered]; what [reason] is makes no difference.  For a draw between
    1000 and 9999 the message of a success carries a return id of [RET] and
    four digits. *)
Theorem process_return_delivered_only (orders : gmap str Order)
    (id reason : str) (draw : N) :
  (success (process_return orders id reason draw) = true
   <-> exists order, orders !! id = Some order /\ status order = lit "delivered")
  /\ process_return orders id reason draw = process_return orders id [] draw
  /\ ((1000 <= draw <= 9999)%N ->
      success (process_return orders id reason draw) = true ->
      exists digits,
        length digits = 4
        /\ message (process_return orders id reason draw)
           = lit "Return request processed. Return ID: RET" ++ digits
             ++ lit ". Please ship items back within 30 days.").
Proof.
  unfold process_return. destruct (orders !! id) as [order|] eqn:Hget.
  - destruct (bool_decide (status order = lit "delivered")) eqn:Hd; cbn [negb success message].
    + apply bool_decide_eq_true in Hd. repeat split; eauto.
      intros Hdraw _. exists (Py.str_of_N draw). split; [|reflexivity].
      pose proof four_digits_check as H. rewrite forallb_forall in H.
      rewrite <- (N2Nat.id draw). apply Nat.eqb_eq, H, in_seq. lia.
    + apply bool_decide_eq_false in Hd. repeat split; try discriminate.
      intros (order' & [= <-] & H). contradiction.
  - repeat split; try discriminate. intros (order & H & _). discriminate.
Qed.

(** X11.  Once [cancel_order] has succeeded on an order, [process_return] on it
    fails, whatever its status was before; returns of the other orders are
    answered as before the cancellation. *)
Theorem cancel_blocks_return (orders : gmap str Order) (id reason : str)
    (draw : N) :
  success (snd (cancel_order orders id)) = true ->
  let orders' := fst (cancel_order orders id) in
  process_return orders' id reason draw
  = {| success := false;
       message := lit "Order must be delivered to process return" |}
  /\ (forall other,
        other <> id ->
        process_return orders' other reason draw
        = process_return orders other reason draw).
Proof.
  unfold cancel_order. destruct (orders !! id) as [order|] eqn:Hget; [|discriminate].
  destruct (can_cancel order); cbn [negb snd fst success]; [|discriminate].
  intros _. split.
  - unfold process_return. rewrite lookup_insert_eq. reflexivity.
  - intros other Hne. unfold process_return.
    rewrite lookup_insert_ne by congruence. reflexivity.
Qed.

(** X12.  [cancel_order] never adds or removes an order, and never changes what
    an order is about: under every id the order has the same order id,
    customer, items, total, date, address and tracking number as before. *)
Theorem cancel_order_keeps_orders (orders : gmap str Order) (id : str) :
  let orders' := fst (cancel_order orders id) in
  dom orders' = dom orders
  /\ (forall key order',
        orders' !! key = Some order' ->
        exists order,
          orders !! key = Some order
          /\ order_id order' = order_id order
          /\ customer_id order' = customer_id order
          /\ items order' = items order
          /\ total order' = total order
          /\ order_date order' = order_date order
          /\ shipping_address order' = shipping_address order
          /\ tracking_number order' = tracking_number order).
Proof.
  cbv zeta. unfold cancel_order.
  destruct (orders !! id) as [order|] eqn:Hget; cbn [fst].
  2:{ split; [reflexivity|]. intros key order' H. exists order'. auto 10. }
  destruct (can_cancel order); cbn [negb fst].
  2:{ split; [reflexivity|]. intros key order' H. exists order'. auto 10. }
  split.
  - rewrite dom_insert_L. apply elem_of_dom_2 in Hget.
    apply subseteq_union_1_L, singleton_subseteq_l, Hget.
  - intros key order' H. destruct (decide (key = id)) as [->|Hne].
    + rewrite lookup_insert_eq in H. injection H as H. subst order'.
      exists order. auto 10.
    + rewrite lookup_insert_ne in H by congruence. exists order'. auto 10.
Qed.

End OrderMore.

(** ** The catalogue *)

Section ProductMore.

Import MockProductDatabase.

Lemma search_flag (query : str) (category : option str) (product : Product) :
  match Py.truthy category with
  | Some wanted =>
      if negb (MockCustomerDatabase.str_eqb (Py.lower wanted)
                 (Py.lower (MockProductDatabase.category product)))
      then false
      else Py.contains (Py.lower query) (Py.lower (name product))
  | None => Py.contains (Py.lower query) (Py.lower (name product))
  end = matches_search query category product.
Proof.
  unfold matches_search, MockCustomerDatabase.str_eqb.
  destruct (Py.truthy category) as [wanted|].
  - destruct (bool_decide _), (Py.contains _ _); reflexivity.
  - rewrite andb_true_r. reflexivity.
Qed.

Lemma search_loop_filter (rest : list Product) (query : str) (category : option str) :
  search_loop rest (Py.lower query) category
  = List.filter (matches_search query category) rest.
Proof.
  induction rest as [|product rest IH]; [reflexivity|].
  cbn [search_loop List.filter]. cbv zeta. rewrite search_flag, IH. reflexivity.
Qed.

(** X13.  [search_products] returns, in the order of the catalogue, exactly the
    products whose name contains the query, letter case apart, and, when a
    category is given, whose category is that one, letter case apart. *)
Theorem search_products_sound_complete (products : list (str * Product))
    (query : str) (category : option str) :
  search_products products query category
  = List.filter (matches_search query category) (values products)
  /\ (forall product,
        In product (search_products products query category)
        <-> In product (values products)
            /\ Py.contains (Py.lower query) (Py.lower (name product)) = true
            /\ (forall wanted,
                  Py.truthy category = Some wanted ->
                  Py.lower wanted = Py.lower (MockProductDatabase.category product))).
Proof.
  unfold search_products. rewrite search_loop_filter. split; [reflexivity|].
  intros product. rewrite filter_In. unfold matches_search.
  rewrite andb_true_iff. split.
  - intros (Hin & Hname & Hcat). repeat split; auto.
    intros wanted Hw. rewrite Hw in Hcat. apply bool_decide_eq_true in Hcat. exact Hcat.
  - intros (Hin & Hname & Hcat). repeat split; auto.
    destruct (Py.truthy category) as [wanted|]; [|reflexivity].
    apply bool_decide_eq_true, Hcat. reflexivity.
Qed.

Lemma contains_nil (s : str) : Py.contains [] s = true.
Proof. unfold Py.contains. destruct s; reflexivity. Qed.

Lemma filter_true {A} (f : A -> bool) (l : list A) :
  (forall x, f x = true) -> List.filter f l = l.
Proof.
  intros H. induction l as [|x l IH]; [reflexivity|].
  cbn. rewrite H, IH. reflexivity.
Qed.

Lemma filter_sublist {A} (f g : A -> bool) (l : list A) :
  (forall x, f x = true -> g x = true) ->
  sublist (List.filter f l) (List.filter g l).
Proof.
  intros H. induction l as [|x l IH]; [constructor|]. cbn.
  destruct (f x) eqn:Hf.
  - rewrite (H x Hf). constructor. exact IH.
  - destruct (g x); [constructor|]; exact IH.
Qed.

(** X14.  The empty query with no category returns the whole catalogue; an empty
    category is no category; a category only narrows the answer of the same
    query; and queries and categories that differ only in letter case get the
    same answer. *)
Theorem search_products_edges (products : list (str * Product)) (query : str)
    (category : option str) :
  search_products products [] None = values products
  /\ search_products products query (Some []) = search_products products query None
  /\ sublist (search_products products query category)
             (search_products products query None)
  /\ (forall query' wanted wanted',
        Py.lower query' = Py.lower query ->
        Py.lower wanted' = Py.lower wanted ->
        wanted <> [] -> wanted' <> [] ->
        search_products products query' (Some wanted')
        = search_products products query (Some wanted)).
Proof.
  unfold search_products. rewrite !search_loop_filter. repeat split.
  - apply filter_true. intros product. unfold matches_search.
    cbn [Py.lower map Py.truthy]. rewrite contains_nil. reflexivity.
  - apply filter_sublist. intros product. unfold matches_search.
    rewrite !andb_true_iff. cbn [Py.truthy]. tauto.
  - intros query' wanted wanted' Hq Hw Hne Hne'.
    rewrite !search_loop_filter. unfold matches_search.
    destruct wanted as [|c r]; [congruence|].
    destruct wanted' as [|c' r']; [congruence|].
    cbn [Py.truthy]. rewrite Hq, Hw. reflexivity.
Qed.

Lemma insert_by_rating_perm (product : Product) (sorted : list Product) :
  Permutation (insert_by_rating product sorted) (product :: sorted).
Proof.
  induction sorted as [|other rest IH]; cbn [insert_by_rating]; [reflexivity|].
  destruct (rating product <? rating other)%N; [|reflexivity].
  rewrite IH. apply perm_swap.
Qed.

Lemma sorted_by_rating_perm (products : list Product) :
  Permutation (sorted_by_rating products) products.
Proof.
  induction products as [|product rest IH]; [reflexivity|].
  cbn [sorted_by_rating fold_right]. rewrite insert_by_rating_perm.
  constructor. exact IH.
Qed.

Lemma insert_by_rating_sorted (product : Product) (sorted : list Product) :
  StronglySorted better sorted ->
  StronglySorted better (insert_by_rating product sorted).
Proof.
  induction 1 as [|other rest Hrest IH Hall]; cbn [insert_by_rating].
  - repeat constructor.
  - destruct (rating product <? rating other)%N eqn:Hlt.
    + apply N.ltb_lt in Hlt. constructor; [exact IH|].
      rewrite insert_by_rating_perm. constructor; [unfold better; lia | exact Hall].
    + apply N.ltb_ge in Hlt. constructor; [constructor; assumption|].
      constructor; [exact Hlt|].
      eapply List.Forall_impl; [|exact Hall]. unfold better. intros; lia.
Qed.

Lemma sorted_by_rating_sorted (products : list Product) :
  StronglySorted better (sorted_by_rating products).
Proof.
  induction products as [|product rest IH]; [constructor|].
  apply insert_by_rating_sorted, IH.
Qed.

Lemma In_firstn {A} (n : nat) (l : list A) (x : A) : In x (firstn n l) -> In x l.
Proof. intros H. rewrite <- (firstn_skipn n l). apply in_or_app. auto. Qed.

Lemma In_skipn {A} (n : nat) (l : list A) (x : A) : In x (skipn n l) -> In x l.
Proof. intros H. rewrite <- (firstn_skipn n l). apply in_or_app. auto. Qed.

Lemma StronglySorted_split {A} (R : A -> A -> Prop) (n : nat) (l : list A) :
  StronglySorted R l ->
  StronglySorted R (firstn n l)
  /\ forall a b, In a (firstn n l) -> In b (skipn n l) -> R a b.
Proof.
  intros H. revert n. induction H as [|x l Hl IH Hall]; intros n.
  - rewrite firstn_nil. split; [constructor | intros a b []].
  - destruct n as [|n]; cbn [firstn skipn].
    + split; [constructor | intros a b []].
    + destruct (IH n) as [Hs Hcross]. split.
      * constructor; [exact Hs|].
        rewrite List.Forall_forall in *. intros y Hy. apply Hall.
        eapply In_firstn. exact Hy.
      * intros a b [<- | Ha] Hb.
        -- rewrite List.Forall_forall in Hall. apply Hall.
           eapply In_skipn. exact Hb.
        -- apply Hcross; assumption.
Qed.

(** X16.  With no weather and no category, [get_recommendations] returns the
    three best rated products of the catalogue (all of them when there are
    fewer), best first: no product left out is rated above one that is
    returned. *)
Theorem default_recommendations_top_rated (products : list (str * Product))
    (category weather_condition : option str) :
  Py.truthy category = None ->
  Py.truthy weather_condition = None ->
  let chosen := get_recommendations products category weather_condition in
  exists left_out,
    Permutation (values products) (chosen ++ left_out)
    /\ length chosen = Nat.min 3 (length products)
    /\ StronglySorted better chosen
    /\ (forall a b, In a chosen -> In b left_out -> better a b).
Proof.
  intros Hc Hw. cbv zeta. unfold get_recommendations. rewrite Hc, Hw.
  set (sorted := sorted_by_rating (values products)).
  exists (skipn 3 sorted).
  destruct (StronglySorted_split better 3 sorted (sorted_by_rating_sorted _))
    as [Hs Hcross].
  split; [|split; [|split]]; auto.
  - rewrite firstn_skipn. symmetry. apply sorted_by_rating_perm.
  - rewrite length_firstn. unfold sorted.
    rewrite (Permutation_length (sorted_by_rating_perm (values products))).
    unfold values. rewrite length_map. reflexivity.
Qed.

End ProductMore.

Section RecommendMore.

Import MockProductDatabase.

Lemma In_filter_values {A} (f : A -> bool) (l : list A) (x : A) :
  In x (List.filter f l) -> In x l.
Proof. rewrite filter_In. tauto. Qed.

Lemma top_three_nonempty (products : list Product) :
  products <> [] -> firstn 3 (sorted_by_rating products) <> [].
Proof.
  intros Hne H. apply (f_equal (@length Product)) in H.
  rewrite length_firstn, (Permutation_length (sorted_by_rating_perm products)) in H.
  destruct products; [congruence | simpl in H; lia].
Qed.

Lemma top_three_In (products : list Product) (product : Product) :
  In product (firstn 3 (sorted_by_rating products)) -> In product products.
Proof.
  intros H. apply In_firstn in H.
  eapply Permutation_in; [apply sorted_by_rating_perm | exact H].
Qed.

Lemma get_recommendations_from_catalogue (products : list (str * Product))
    (category weather_condition : option str) :
  (products <> [] -> get_recommendations products category weather_condition <> [])
  /\ forall product,
       In product (get_recommendations products category weather_condition) ->
       In product (values products).
Proof.
  unfold get_recommendations.
  set (first_pick := match Py.truthy weather_condition with
                     | Some weather => _
                     | None => []
                     end).
  assert (forall product, In product first_pick -> In product (values products)) as H1.
  { unfold first_pick. destruct (Py.truthy weather_condition) as [weather|];
      [|intros ? []].
    destruct (_ || _); [intros ?; apply In_filter_values|].
    destruct (Py.contains _ _); [intros ?; apply In_filter_values | intros ? []]. }
  set (second_pick := match first_pick, Py.truthy category with
                      | [], Some wanted => _
                      | _, _ => first_pick
                      end).
  assert (forall product, In product second_pick -> In product (values products)) as H2.
  { unfold second_pick. destruct first_pick; [|exact H1].
    destruct (Py.truthy category); [intros ?; apply In_filter_values | intros ? []]. }
  destruct second_pick as [|product rest].
  - split.
    + intros Hne. apply top_three_nonempty. unfold values.
      destruct products; [congruence | discriminate].
    + intros product. apply top_three_In.
  - split; [discriminate | exact H2].
Qed.

(** X15.  Whatever category and weather it is asked for, [get_recommendations]
    on a catalogue that is not empty recommends at least one product, and
    only products of the catalogue. *)
Theorem recommendations_never_empty (products : list (str * Product))
    (category weather_condition : option str) :
  products <> [] ->
  get_recommendations products category weather_condition <> []
  /\ forall product,
       In product (get_recommendations products category weather_condition) ->
       In product (values products).
Proof.
  intros Hne.
  destruct (get_recommendations_from_catalogue products category weather_condition)
    as [H1 H2].
  auto.
Qed.

(** X17.  When the weather mentions [cold] or [winter], in any letter case, and
    the catalogue has clothing or a product named for winter, those products
    are the recommendation, in the order of the catalogue, whatever category
    is asked for and whatever else the weather mentions. *)
Theorem cold_weather_recommends_winter_wear (products : list (str * Product))
    (category weather_condition : option str) (weather : str) :
  Py.truthy weather_condition = Some weather ->
  Py.contains (lit "cold") (Py.lower weather) = true
  \/ Py.contains (lit "winter") (Py.lower weather) = true ->
  List.filter is_winter_wear (values products) <> [] ->
  get_recommendations products category weather_condition
  = List.filter is_winter_wear (values products)
  /\ forall product,
       In product (get_recommendations products category weather_condition) ->
       Py.contains (lit "winter") (Py.lower (name product)) = true
       \/ Py.lower (MockProductDatabase.category product) = lit "clothing".
Proof.
  intros Hw Hcold Hne.
  assert (get_recommendations products category weather_condition
          = List.filter is_winter_wear (values products)) as E.
  { unfold get_recommendations. rewrite Hw.
    assert (Py.contains (lit "cold") (Py.lower weather)
            || Py.contains (lit "winter") (Py.lower weather) = true) as ->.
    { apply orb_true_iff. exact Hcold. }
    destruct (List.filter is_winter_wear (values products)); [congruence|].
    reflexivity. }
  split; [exact E|]. rewrite E. intros product H.
  apply filter_In in H as [_ H]. unfold is_winter_wear in H.
  apply orb_true_iff in H as [H|H]; [left; exact H | right].
  unfold MockCustomerDatabase.str_eqb in H. apply bool_decide_eq_true in H. exact H.
Qed.

End RecommendMore.

(** ** The customers *)

Section CustomerMore.

Import MockCustomerDatabase.

Lemma str_eqb_eq (a b : str) : str_eqb a b = true <-> a = b.
Proof. unfold str_eqb. apply bool_decide_eq_true. Qed.

Lemma str_eqb_neq (a b : str) : str_eqb a b = false <-> a <> b.
Proof. unfold str_eqb. apply bool_decide_eq_false. Qed.

(** X18.  [get_customer_by_email] compares emails letter case apart and returns
    the first customer, in the order of the store, whose email is the one
    asked for; it returns nothing exactly when no customer has it. *)
Theorem get_customer_by_email_first_match (customers : list (str * Customer))
    (mail : str) :
  (forall customer,
      get_customer_by_email customers mail = Some customer
      <-> exists before key after,
            customers = before ++ (key, customer) :: after
            /\ Py.lower (email customer) = Py.lower mail
            /\ Forall (fun entry => Py.lower (email (snd entry)) <> Py.lower mail)
                      before)
  /\ (get_customer_by_email customers mail = None
      <-> Forall (fun entry => Py.lower (email (snd entry)) <> Py.lower mail)
                 customers)
  /\ (forall mail',
        Py.lower mail' = Py.lower mail ->
        get_customer_by_email customers mail' = get_customer_by_email customers mail).
Proof.
  split; [|split].
  - intros customer. split.
    + induction customers as [|[key c] rest IH]; cbn [get_customer_by_email];
        [discriminate|].
      destruct (str_eqb (Py.lower (email c)) (Py.lower mail)) eqn:E.
      * intros [= <-]. apply str_eqb_eq in E. exists [], key, rest. auto.
      * intros H. apply str_eqb_neq in E.
        destruct (IH H) as (before & key' & after & -> & Hm & Hb).
        exists ((key, c) :: before), key', after. auto.
    + intros (before & key & after & -> & Hm & Hb).
      induction Hb as [|[key' c'] before Hne Hb IH]; cbn [app get_customer_by_email].
      * apply str_eqb_eq in Hm. rewrite Hm. reflexivity.
      * cbn [snd] in Hne. apply str_eqb_neq in Hne. rewrite Hne. exact IH.
  - induction customers as [|[key c] rest IH]; cbn [get_customer_by_email].
    + split; [constructor | reflexivity].
    + destruct (str_eqb (Py.lower (email c)) (Py.lower mail)) eqn:E.
      * apply str_eqb_eq in E. split; [discriminate|].
        intros H. inversion H; subst. cbn [snd] in *. contradiction.
      * apply str_eqb_neq in E. rewrite IH. split.
        -- intros H. constructor; assumption.
        -- intros H. inversion H; assumption.
  - intros mail' Hm.
    induction customers as [|[key c] rest IH]; cbn [get_customer_by_email];
      [reflexivity|].
    rewrite Hm, IH. reflexivity.
Qed.

End CustomerMore.

(** ** The tools that answer *)

Section ToolMore.

Import Tools.

Lemma lstrip_stops (a b : str) (c : ascii) :
  Py.isspace c = false -> exists a', Py.lstrip (a ++ c :: b) = a' ++ c :: b.
Proof.
  intros Hc. induction a as [|x a IH]; cbn [app Py.lstrip].
  - rewrite Hc. exists []. reflexivity.
  - destruct IH as [a' IH].
    destruct (Py.isspace x); [exists a'; exact IH | exists (x :: a); reflexivity].
Qed.

(** A text that starts, after blanks, with [p] and a character that is not
    blank keeps them in front when it is stripped. *)
Lemma strip_keeps_front (ws p r : str) (c0 c : ascii) :
  forallb Py.isspace ws = true ->
  Py.isspace c0 = false -> Py.isspace c = false ->
  exists r', Py.strip (ws ++ (c0 :: p) ++ c :: r) = (c0 :: p) ++ c :: r'.
Proof.
  intros Hws Hc0 Hc. unfold Py.strip, Py.rstrip.
  rewrite lstrip_spaces by assumption.
  rewrite (lstrip_id ((c0 :: p) ++ c :: r))
    by (cbn [app]; intros ? ? [= <- _]; exact Hc0).
  rewrite rev_app_distr. cbn [rev]. rewrite <- app_assoc. cbn [app].
  destruct (lstrip_stops (rev r) (rev (c0 :: p)) c Hc) as [a' Ha].
  cbn [rev] in Ha. rewrite Ha.
  exists (rev a'). rewrite rev_app_distr. cbn [rev].
  rewrite rev_app_distr, rev_involutive. cbn [rev app].
  rewrite <- !app_assoc. reflexivity.
Qed.

(** For a goal on the strip of a text that starts with the blanks [ws], an
    [R], the text [p] and a colon. *)
Ltac stripped_front ws p :=
  match goal with
  | |- exists rest, Ok (Py.strip ?info) = Ok _ =>
      let r := fresh "r" in
      let Hinfo := fresh "Hinfo" in
      let Hstrip := fresh "Hstrip" in
      assert (exists r, info = ws ++ ("R"%char :: p) ++ ":"%char :: r)
        as [r Hinfo] by (eexists; reflexivity);
      rewrite Hinfo;
      destruct (strip_keeps_front ws p r "R"%char ":"%char eq_refl eq_refl eq_refl)
        as [? Hstrip];
      rewrite Hstrip; eexists; reflexivity
  end.

(** X19.  [OrderCancelTool] always answers with a text, and the text tells what
    happened to the store: the store is changed exactly when the answer is
    that the order was cancelled. *)
Theorem OrderCancelTool_reports (orders : gmap str MockOrderDatabase.Order)
    (order_id : str) :
  exists text,
    snd (OrderCancelTool_run orders order_id) = Ok (lit "RESULT: " ++ text)
    /\ (fst (OrderCancelTool_run orders order_id) <> orders
        <-> text = lit "Order cancelled successfully").
Proof.
  unfold OrderCancelTool_run, MockOrderDatabase.cancel_order.
  destruct (orders !! order_id) as [order|] eqn:Hget.
  - destruct (MockOrderDatabase.can_cancel order) eqn:Hcan; cbn [negb fst snd].
    + eexists. split; [reflexivity|]. split; [reflexivity|]. intros _ H.
      apply (f_equal (fun m => m !! order_id)) in H.
      rewrite lookup_insert_eq, Hget in H. injection H as H.
      apply (f_equal MockOrderDatabase.can_cancel) in H. cbn in H. congruence.
    + eexists. split; [reflexivity|]. split; [congruence|]. vm_compute. discriminate.
  - eexists. split; [reflexivity|]. cbn [fst]. split; [congruence|].
    vm_compute. discriminate.
Qed.

(** X20.  [CustomerInfoTool] looks the customer up by id when an id is given and
    only otherwise by email: with an id the email is not read, so an id that
    is not in the store is answered [not found] even with the email of a
    registered customer; with neither it asks for one of them.  It always
    answers with a text that starts with [RESULT:]. *)
Theorem CustomerInfoTool_prefers_id
    (customers : list (str * MockCustomerDatabase.Customer))
    (customer_id email : option str) :
  (Py.truthy customer_id = None -> Py.truthy email = None ->
   CustomerInfoTool_run customers customer_id email
   = Ok (lit "RESULT: Error - Please provide either customer ID or email address."))
  /\ (forall id email',
        Py.truthy customer_id = Some id ->
        CustomerInfoTool_run customers customer_id email'
        = CustomerInfoTool_run customers customer_id email)
  /\ (forall id,
        Py.truthy customer_id = Some id ->
        MockCustomerDatabase.get_customer_info customers id = None ->
        CustomerInfoTool_run customers customer_id email
        = Ok (lit "RESULT: Customer ID " ++ id
              ++ lit " not found in our system. This customer ID does not exist. Try asking the customer for their email address instead or use the get_customer_orders tool to search for their orders directly."))
  /\ exists rest,
       CustomerInfoTool_run customers customer_id email = Ok (lit "RESULT:" ++ rest).
Proof.
  unfold CustomerInfoTool_run. split; [|split; [|split]].
  - intros -> ->. reflexivity.
  - intros id email' ->. reflexivity.
  - intros id -> ->. reflexivity.
  - destruct (Py.truthy customer_id) as [id|].
    + destruct (MockCustomerDatabase.get_customer_info customers id) as [customer|].
      * stripped_front [Py.LF]
          (lit "ESULT: Customer Information Found" ++ Py.LF :: lit "Name").
      * eexists. reflexivity.
    + destruct (Py.truthy email) as [mail|]; [|eexists; reflexivity].
      destruct (MockCustomerDatabase.get_customer_by_email customers mail) as [customer|].
      * stripped_front [Py.LF]
          (lit "ESULT: Customer Information Found" ++ Py.LF :: lit "Name").
      * eexists. reflexivity.
Qed.

(** X21.  On a catalogue that is not empty [ProductRecommendationTool] always
    lists products: it never answers that no recommendation is
    available. *)
Theorem ProductRecommendationTool_always_recommends
    (products : list (str * MockProductDatabase.Product))
    (category weather_condition : option str) :
  products <> [] ->
  exists rest,
    ProductRecommendationTool_run products category weather_condition
    = Ok (lit "RESULT: Here are some recommended products:" ++ rest).
Proof.
  intros Hne. unfold ProductRecommendationTool_run.
  destruct (get_recommendations_from_catalogue products category weather_condition)
    as [Hnonempty _].
  destruct (MockProductDatabase.get_recommendations products category weather_condition)
    as [|product rest]; [exfalso; apply (Hnonempty Hne); reflexivity|].
  stripped_front (@nil ascii) (lit "ESULT: Here are some recommended products").
Qed.

End ToolMore.

(** ** The further properties at concrete inputs *)

Section MoreInstances.

Import ConversationBufferWindowMemory Agent.

Lemma process_message_remembers_reply_witness :
  0 < k (memory Sample.agent)
  /\ exists earlier,
       messages (memory (fst (process_message Sample.unreachable Sample.agent
                                (lit "hi") None)))
       = earlier
         ++ [HumanMessage (lit "hi");
             AIMessage (snd (process_message Sample.unreachable Sample.agent
                               (lit "hi") None))].
Proof.
  assert (0 < k (memory Sample.agent)) as Hk by (cbn; lia).
  split; [exact Hk|].
  apply (process_message_remembers_reply Sample.unreachable Sample.agent
           (lit "hi") None Hk).
Defined.

(** The service cannot be reached, and [__init__] still returns an agent:
    its primary client has never been called. *)
Lemma init_takes_primary_unprobed_witness :
  snd (__init__ Sample.unreachable (Some (lit "gsk_given")))
  = Ok {| llm := primary_llm (Some (lit "gsk_given"));
          memory := new 10;
          agent_executor := new_executor (primary_llm (Some (lit "gsk_given"))) |}
  /\ getenv_GROQ_API_KEY (fst (__init__ Sample.unreachable (Some (lit "gsk_given"))))
     = Some (lit "gsk_given")
  /\ probe_ok Sample.unreachable (primary_llm (Some (lit "gsk_given"))) = false.
Proof.
  destruct (init_takes_primary_unprobed Sample.unreachable (Some (lit "gsk_given"))
              (lit "gsk_given") eq_refl eq_refl) as [Henv Hagent].
  split; [exact Hagent|]. split; [exact Henv | reflexivity].
Defined.

Lemma init_falls_back_in_order_witness :
  raises (snd (__init__ Sample.only_gemma None)) = false
  /\ forall self,
       snd (__init__ Sample.only_gemma None) = Ok self ->
       exists before model after,
         fallback_models = before ++ model :: after
         /\ Forall (fun m => probe_ok Sample.only_gemma
                               (fallback_llm (Some Sample.API_KEY) m) = false) before
         /\ probe_ok Sample.only_gemma (fallback_llm (Some Sample.API_KEY) model) = true
         /\ self = {| llm := fallback_llm (Some Sample.API_KEY) model;
                      memory := new 10;
                      agent_executor :=
                        new_executor (fallback_llm (Some Sample.API_KEY) model) |}.
Proof.
  split; [reflexivity|].
  apply (init_falls_back_in_order Sample.only_gemma None).
  right. exists Sample.API_KEY. split; reflexivity.
Defined.

Lemma agent_stays_well_formed_witness :
  well_formed
    (serve_all Sample.always_action Sample.agent
       [Say (lit "hi") None; SwitchTo (lit "gemma2-9b-it"); ClearChat;
        Say (lit "again") (Some (lit "{'customer_id': 'CUST001'}"))]).
Proof.
  apply (agent_stays_well_formed Sample.answering Sample.always_action None).
  reflexivity.
Defined.

Lemma history_is_whole_exchanges_witness :
  exists turns,
    get_conversation_history
      (serve_all (Sample.failing (lit "timeout")) Sample.agent
         [Say (lit "hi") None; Say (lit "are you there?") None])
    = concat (map (fun turn => [user_says (fst turn); assistant_says (snd turn)]) turns).
Proof.
  apply (history_is_whole_exchanges Sample.answering (Sample.failing (lit "timeout"))
           None Sample.agent
           [Say (lit "hi") None; Say (lit "are you there?") None]).
  reflexivity.
Defined.

Lemma switch_model_last_success_wins_witness :
  last_passing Sample.unreachable [lit "llama3-8b-8192"; lit "gemma2-9b-it"] = None
  /\ serve_all Sample.unreachable Sample.agent
       (map SwitchTo [lit "llama3-8b-8192"; lit "gemma2-9b-it"])
     = Sample.agent.
Proof.
  split; [reflexivity|].
  apply (switch_model_last_success_wins Sample.unreachable Sample.agent
           [lit "llama3-8b-8192"; lit "gemma2-9b-it"]).
  reflexivity.
Defined.

Lemma update_context_reads_back_witness :
  let context : gmap str str := {[ lit "customer_id" := lit "CUST001" ]} in
  let sessions := CustomerContext.update_context ∅ (lit "s1") context in
  CustomerContext.get_context sessions (lit "s1") !! lit "customer_id"
  = Some (lit "CUST001")
  /\ CustomerContext.get_context sessions (lit "s2") = CustomerContext.get_context ∅ (lit "s2")
  /\ CustomerContext.get_context ∅ (lit "s1") = ∅.
Proof.
  cbv zeta.
  destruct (update_context_reads_back ∅ (lit "s1")
              {[ lit "customer_id" := lit "CUST001" ]}) as (Hset & _ & Hother & Hnew).
  split; [|split].
  - apply Hset. reflexivity.
  - apply Hother. vm_compute. discriminate.
  - apply Hnew. reflexivity.
Defined.

Lemma process_return_delivered_only_witness :
  exists digits,
    length digits = 4
    /\ MockOrderDatabase.message
         (MockOrderDatabase.process_return MockOrderDatabase.init (lit "ORD003")
            (lit "too small") 4242)
       = lit "Return request processed. Return ID: RET" ++ digits
         ++ lit ". Please ship items back within 30 days.".
Proof.
  apply (process_return_delivered_only MockOrderDatabase.init (lit "ORD003")
           (lit "too small") 4242%N).
  - lia.
  - reflexivity.
Defined.

Lemma cancel_blocks_return_witness :
  MockOrderDatabase.success
    (snd (MockOrderDatabase.cancel_order MockOrderDatabase.init (lit "ORD002"))) = true
  /\ MockOrderDatabase.process_return
       (fst (MockOrderDatabase.cancel_order MockOrderDatabase.init (lit "ORD002")))
       (lit "ORD002") [] 4242
     = {| MockOrderDatabase.success := false;
          MockOrderDatabase.message := lit "Order must be delivered to process return" |}.
Proof.
  split; [reflexivity|].
  destruct (cancel_blocks_return MockOrderDatabase.init (lit "ORD002") [] 4242%N eq_refl)
    as [Hfails _].
  exact Hfails.
Defined.

Lemma cancel_order_keeps_orders_witness :
  exists order order',
    MockOrderDatabase.init !! lit "ORD002" = Some order
    /\ fst (MockOrderDatabase.cancel_order MockOrderDatabase.init (lit "ORD002"))
         !! lit "ORD002" = Some order'
    /\ MockOrderDatabase.items order' = MockOrderDatabase.items order
    /\ MockOrderDatabase.total order' = MockOrderDatabase.total order.
Proof.
  destruct (cancel_order_keeps_orders MockOrderDatabase.init (lit "ORD002"))
    as [_ Hkeep].
  edestruct (Hkeep (lit "ORD002")) as (order & Hget & _ & _ & Hitems & Htotal & _).
  - vm_compute. reflexivity.
  - exists order. eexists. split; [exact Hget|]. split; [vm_compute; reflexivity|].
    split; [exact Hitems | exact Htotal].
Defined.

Lemma search_products_sound_complete_witness :
  exists product,
    In product (MockProductDatabase.search_products MockProductDatabase.init
                  (lit "WATCH") (Some (lit "electronics")))
    /\ MockProductDatabase.product_id product = lit "PROD002".
Proof.
  destruct (MockCustomerDatabase.dict_get MockProductDatabase.init (lit "PROD002"))
    as [product|] eqn:Hget; [|discriminate].
  exists product. split.
  - apply (search_products_sound_complete MockProductDatabase.init
             (lit "WATCH") (Some (lit "electronics"))).
    injection Hget as <-. split; [|split].
    + cbn. tauto.
    + reflexivity.
    + intros wanted [= <-]. reflexivity.
  - injection Hget as <-. reflexivity.
Defined.

Lemma search_products_edges_witness :
  MockProductDatabase.search_products MockProductDatabase.init
    (lit "LAMP") (Some (lit "OFFICE"))
  = MockProductDatabase.search_products MockProductDatabase.init
      (lit "lamp") (Some (lit "Office")).
Proof.
  apply (search_products_edges MockProductDatabase.init (lit "lamp") None);
    try reflexivity; discriminate.
Defined.

Lemma default_recommendations_top_rated_witness :
  exists left_out,
    Permutation (MockProductDatabase.values MockProductDatabase.init)
      (MockProductDatabase.get_recommendations MockProductDatabase.init (Some []) None
       ++ left_out)
    /\ length (MockProductDatabase.get_recommendations MockProductDatabase.init
                 (Some []) None) = 3
    /\ forall a b,
         In a (MockProductDatabase.get_recommendations MockProductDatabase.init
                 (Some []) None) ->
         In b left_out -> better a b.
Proof.
  destruct (default_recommendations_top_rated MockProductDatabase.init (Some []) None
              eq_refl eq_refl) as (left_out & Hperm & Hlen & _ & Hbest).
  exists left_out. split; [exact Hperm|]. split; [exact Hlen | exact Hbest].
Defined.

Lemma recommendations_never_empty_witness :
  MockProductDatabase.get_recommendations MockProductDatabase.init
    (Some (lit "Books")) (Some (lit "sunny")) <> [].
Proof.
  apply (recommendations_never_empty MockProductDatabase.init
           (Some (lit "Books")) (Some (lit "sunny"))).
  discriminate.
Defined.

Lemma cold_weather_recommends_winter_wear_witness :
  MockProductDatabase.get_recommendations MockProductDatabase.init
    (Some (lit "Electronics")) (Some (lit "COLD and rainy"))
  = List.filter MockProductDatabase.is_winter_wear
      (MockProductDatabase.values MockProductDatabase.init).
Proof.
  apply (cold_weather_recommends_winter_wear MockProductDatabase.init
           (Some (lit "Electronics")) (Some (lit "COLD and rainy"))
           (lit "COLD and rainy")).
  - reflexivity.
  - left. reflexivity.
  - discriminate.
Defined.

Lemma get_customer_by_email_first_match_witness :
  MockCustomerDatabase.get_customer_by_email MockCustomerDatabase.init
    (lit "Jane.Smith@Email.com")
  = MockCustomerDatabase.get_customer_by_email MockCustomerDatabase.init
      (lit "jane.smith@email.com")
  /\ MockCustomerDatabase.get_customer_by_email MockCustomerDatabase.init
       (lit "nobody@email.com") = None.
Proof.
  split.
  - apply (get_customer_by_email_first_match MockCustomerDatabase.init
             (lit "jane.smith@email.com")). reflexivity.
  - apply (get_customer_by_email_first_match MockCustomerDatabase.init
             (lit "nobody@email.com")).
    repeat constructor; vm_compute; discriminate.
Defined.

(** An id that is not in the store, with the email of a registered
    customer: the email is not used. *)
Lemma CustomerInfoTool_prefers_id_witness :
  Tools.CustomerInfoTool_run MockCustomerDatabase.init
    (Some (lit "CUST999")) (Some (lit "john.doe@email.com"))
  = Ok (lit "RESULT: Customer ID " ++ lit "CUST999"
        ++ lit " not found in our system. This customer ID does not exist. Try asking the customer for their email address instead or use the get_customer_orders tool to search for their orders directly.")
  /\ Tools.CustomerInfoTool_run MockCustomerDatabase.init (Some []) None
     = Ok (lit "RESULT: Error - Please provide either customer ID or email address.").
Proof.
  split.
  - destruct (CustomerInfoTool_prefers_id MockCustomerDatabase.init
                (Some (lit "CUST999")) (Some (lit "john.doe@email.com")))
      as (_ & _ & Hmissing & _).
    apply Hmissing; reflexivity.
  - apply (CustomerInfoTool_prefers_id MockCustomerDatabase.init (Some []) None);
      reflexivity.
Defined.

Lemma ProductRecommendationTool_always_recommends_witness :
  exists rest,
    Tools.ProductRecommendationTool_run MockProductDatabase.init
      (Some (lit "Books")) None
    = Ok (lit "RESULT: Here are some recommended products:" ++ rest).
Proof.
  apply (ProductRecommendationTool_always_recommends MockProductDatabase.init
           (Some (lit "Books")) None).
  discriminate.
Defined.

End MoreInstances.
